(** * Dense descriptor training: the orchestrator of [train_descriptor.py]

    A shallow embedding of the training / validation script.  The script
    is one long [__main__] block; it is cut here into the pieces its
    control flow has: argument validation and start-up, one training
    iteration, the training loop over a loader, one validation iteration,
    the validation pass with its checkpoint, one epoch, and the loop over
    epochs.

    The network, the losses, the optimizer, the learning-rate scheduler,
    the data loaders and the checkpoint writer are other modules of the
    repository or of PyTorch; they enter as the fields of one interface
    ([Collaborators]).  Python floats are binary64 numbers, modelled by
    Rocq's primitive floats; Python integers are unbounded, modelled by
    [Z]; a name that was never assigned is [None], and reading it raises
    [NameError]. *)

From Stdlib Require Import ZArith Floats Uint63.
From stdpp Require Import gmap strings list fin_maps pretty.

Local Open Scope Z_scope.

(** ** Python-level values *)

Module Py.

(** The exceptions the script can raise on its own account. *)
Inductive exn : Type :=
| IOError
| OSError
| FileNotFoundError
| FileExistsError
| IndexError
| ZeroDivisionError
| UnpicklingError
| NameError (name : string).

(** [math.isnan(x) or math.isinf(x)] *)
Definition isnan (x : float) : bool := PrimFloat.is_nan x.
Definition isinf (x : float) : bool := PrimFloat.is_infinity x.
Definition nonfinite (x : float) : bool := isnan x || isinf x.

(** An [int] operand of a float operation is converted to the nearest
    binary64 number (loop indices are non-negative and below 2^63). *)
Definition float_of_int (z : Z) : float := PrimFloat.of_uint63 (Uint63.of_Z z).

(** [str(n)] of an integer: its decimal numeral. *)
Definition str_int (z : Z) : string := pretty z.

(** [xs[i]] on a list: [IndexError] out of range (non-negative [i]). *)
Definition index {A} (xs : list A) (i : nat) : exn + A :=
  match xs !! i with
  | Some x => inr x
  | None => inl IndexError
  end.

(** [range(lo, hi)] *)
Definition range (lo hi : Z) : list Z := seqZ lo (hi - lo).

End Py.

Export Py.

(** ** Paths and the file system

    A [pathlib.Path] is its list of components; [p / name] appends one.
    The file system maps the paths that exist to what is stored there. *)

Abbreviation path := (list string).

Definition path_join (p : path) (name : string) : path := p ++ [name].

(** ** The parsed command line ([args]) *)

Record args : Type := {
  adjacent_range : list Z;
  image_downsampling : float;
  network_downsampling : Z;
  input_size : list Z;
  batch_size : Z;
  num_workers : Z;
  lr_range : list float;
  inlier_percentage : float;
  display_interval : Z;
  validation_interval : Z;
  training_patient_id : list Z;
  load_intermediate_data : bool;
  load_trained_model : bool;
  num_epoch : Z;
  num_iter : Z;
  heatmap_sigma : float;
  visibility_overlap : Z;
  display_architecture : bool;
  trained_model_path : option path;
  data_root : path;
  sampling_size : Z;
  log_root : path;
  feature_length : Z;
  filter_growth_rate : Z;
  matching_scale : float;
  matching_threshold : float;
  rr_weight : float;
  cross_check_distance : float;
  precompute_root : path
}.

(** [datetime.datetime.now()], as far as the script reads it. *)
Record datetime : Type := {
  month : Z;
  day : Z;
  hour : Z;
  minute : Z
}.

(** ** The other modules

    Tensors, the descriptor network, the response-map generator, the
    loss, the accuracy metric, automatic differentiation, the SGD
    optimizer, the cyclic learning-rate schedule, the random generators
    and the data loaders. *)
Class Collaborators : Type := {
  image : Type;
  locs1d : Type;
  locs2d : Type;
  heatmap : Type;
  mask : Type;
  tensor : Type;
  feature_map : Type;
  response_map : Type;
  (** a 0-dimensional tensor with its autograd graph *)
  scalar : Type;
  (** the [.grad] fields of the parameters *)
  grads : Type;
  (** [optimizer.state]: the per-parameter momentum buffers *)
  opt_state : Type;
  (** the state of one random generator *)
  generator : Type;
  dataset : Type;
  (** one element of a loader: the tuple the loops unpack *)
  batch_t : Type;
  colors_1 : batch_t -> image;
  colors_2 : batch_t -> image;
  feature_1D_locations_1 : batch_t -> locs1d;
  feature_1D_locations_2 : batch_t -> locs1d;
  feature_2D_locations_1 : batch_t -> locs2d;
  feature_2D_locations_2 : batch_t -> locs2d;
  gt_heatmaps_1 : batch_t -> heatmap;
  gt_heatmaps_2 : batch_t -> heatmap;
  boundaries : batch_t -> mask;

  (** [colors.shape[0]] *)
  shape0 : image -> Z;
  (** [feature_descriptor_model(colors)] under a given [state_dict] *)
  forward : gmap string tensor -> image -> feature_map;
  (** [models.FeatureResponseGenerator(scale, threshold)] applied to
      [[source, target, locations, boundaries]] *)
  response_map_generator :
    float -> float -> feature_map -> feature_map -> locs1d -> mask -> response_map;
  (** [losses.RelativeResponseLoss()] applied to
      [[response_map, locations, boundaries]] *)
  relative_response_loss : response_map -> locs1d -> mask -> scalar;
  (** [losses.MatchingAccuracyMetric(threshold)] *)
  matching_accuracy_metric :
    Z -> response_map -> locs2d -> mask -> scalar * scalar * scalar;
  (** [x * t] and [t + u] on 0-dimensional tensors, and [t.item()] *)
  smul : float -> scalar -> scalar;
  sadd : scalar -> scalar -> scalar;
  item : scalar -> float;

  (** the gradients before the first backward pass *)
  grad_none : grads;
  (** [optimizer.zero_grad()] *)
  zero_grad : grads -> grads;
  (** [loss.backward()]: accumulates into the gradients *)
  backward : scalar -> grads -> grads;
  (** [torch.nn.utils.clip_grad_norm_(parameters, max_norm)] *)
  clip_grad_norm_ : float -> grads -> grads;
  (** [optimizer.state] of a freshly built [torch.optim.SGD] *)
  sgd_init : opt_state;
  (** [optimizer.step()] of SGD at a learning rate and a momentum: the
      new parameters and the new momentum buffers *)
  sgd_step :
    float -> float -> opt_state -> gmap string tensor -> grads ->
    gmap string tensor * opt_state;
  (** [models.CyclicLR.get_lr()] for the bounds [base_lr], [max_lr] at a
      batch iteration *)
  cyclic_lr : float -> float -> Z -> float;

  (** [manual_seed(n)] / [seed(n)] of one generator *)
  seed_generator : Z -> generator;
  (** [models.FCDenseNetFeature] after [utils.init_net]: the initial
      [state_dict], drawn from the torch generator *)
  init_net : args -> generator -> gmap string tensor;
  (** [dataset.DescriptorDataset(...)] over the files of the data root *)
  build_dataset : args -> dataset;
  (** the batches one pass over a [DataLoader] yields ([shuffle],
      dataset, [batch_size]), given the torch, numpy and random
      generators at the moment the pass starts *)
  loader_batches :
    bool -> dataset -> Z -> generator -> generator -> generator -> list batch_t;
  (** the torch generator after such a pass has drawn from it *)
  loader_draws : bool -> dataset -> Z -> generator -> generator;
  (** [str(x)] of a [numpy.float64] *)
  str_float : float -> string
}.

Section Orchestrator.

Context `{C : Collaborators}.

(** ** Data of the script *)

(** [torch.optim.SGD]: the hyper-parameters of its parameter group and
    its per-parameter state.  The learning-rate scheduler holds a
    reference to this object and writes [opt_lr]. *)
Record optimizer_t : Type := {
  opt_lr : float;
  opt_momentum : float;
  opt_buffers : opt_state
}.

(** [models.CyclicLR(optimizer, base_lr, max_lr)] *)
Record cyclic_lr_t : Type := {
  base_lr : float;
  max_lr : float
}.

(** What a checkpoint file holds. *)
Record checkpoint : Type := {
  ck_model : gmap string tensor;
  ck_optimizer : optimizer_t;
  ck_epoch : Z;
  ck_step : Z;
  ck_validation : float
}.

Inductive file : Type :=
| Directory
| CheckpointFile (ck : checkpoint)
| OtherFile.

(** The names the script assigns while it runs, and the objects they
    are bound to.  [mean_rr_loss] and the three [mean_accuracy_*] are
    module-level names without an initial assignment: [None] until
    some iteration assigns them, and they outlive the epoch that
    assigned them. *)
Record state : Type := {
  model_state : gmap string tensor;
  training : bool;
  grad : grads;
  optimizer : optimizer_t;
  step : Z;
  validation_step : Z;
  mean_rr_loss : option float;
  mean_accuracy_1 : option float;
  mean_accuracy_2 : option float;
  mean_accuracy_3 : option float;
  torch_rng : generator;
  np_rng : generator;
  py_rng : generator;
  tq_n : Z;
  fs : gmap path file
}.

(** What is fixed once start-up is over. *)
Record config : Type := {
  cfg_args : args;
  cfg_log_root : path;
  lr_scheduler : cyclic_lr_t;
  train_dataset : dataset
}.

(** The calls on the collaborators, in program order. *)
Inductive event : Type :=
| EvPrint (msg : string)
| EvManualSeed (n : Z)
| EvNpSeed (n : Z)
| EvRandomSeed (n : Z)
| EvSummaryWriter (logdir : path)
| EvBuildDataset
| EvBuildModel
| EvSummary (height width : Z)
| EvTorchLoad (p : path)
| EvTrainMode
| EvEvalMode
| EvTqdm
| EvTqUpdate (n : Z)
| EvTqClose
| EvBatchStep (batch_iteration : Z)
| EvForward (colors : image)
| EvResponseMap (source target : feature_map) (locations : locs1d) (b : mask)
| EvRelativeResponseLoss (r : response_map) (locations : locs1d) (b : mask)
| EvMatchingAccuracy (r : response_map) (locations : locs2d) (b : mask)
| EvZeroGrad
| EvBackward (loss : scalar)
| EvClipGradNorm (max_norm : float)
| EvOptimizerStep
| EvDisplayResults (phase : string) (at_step : Z)
| EvAddScalars (main_tag : string) (values : list (string * float)) (global_step : Z)
| EvSaveModel (ck : checkpoint) (model_path : path)
| EvWriterClose.

(** How a piece of the script ends: it falls through to the next
    statement, or an exception leaves it (and, uncaught, the process). *)
Inductive result : Type :=
| Done (s : state)
| Raised (e : exn) (s : state).

Definition result_state (r : result) : state :=
  match r with
  | Done s => s
  | Raised _ s => s
  end.

(** *** Assignments *)

Definition set_model (ms : gmap string tensor) (o : optimizer_t) (s : state) : state :=
  {| model_state := ms; training := training s; grad := grad s; optimizer := o;
     step := step s; validation_step := validation_step s;
     mean_rr_loss := mean_rr_loss s; mean_accuracy_1 := mean_accuracy_1 s;
     mean_accuracy_2 := mean_accuracy_2 s; mean_accuracy_3 := mean_accuracy_3 s;
     torch_rng := torch_rng s; np_rng := np_rng s; py_rng := py_rng s;
     tq_n := tq_n s; fs := fs s |}.

Definition set_training (m : bool) (s : state) : state :=
  {| model_state := model_state s; training := m; grad := grad s;
     optimizer := optimizer s;
     step := step s; validation_step := validation_step s;
     mean_rr_loss := mean_rr_loss s; mean_accuracy_1 := mean_accuracy_1 s;
     mean_accuracy_2 := mean_accuracy_2 s; mean_accuracy_3 := mean_accuracy_3 s;
     torch_rng := torch_rng s; np_rng := np_rng s; py_rng := py_rng s;
     tq_n := tq_n s; fs := fs s |}.

Definition set_grad (g : grads) (s : state) : state :=
  {| model_state := model_state s; training := training s; grad := g;
     optimizer := optimizer s;
     step := step s; validation_step := validation_step s;
     mean_rr_loss := mean_rr_loss s; mean_accuracy_1 := mean_accuracy_1 s;
     mean_accuracy_2 := mean_accuracy_2 s; mean_accuracy_3 := mean_accuracy_3 s;
     torch_rng := torch_rng s; np_rng := np_rng s; py_rng := py_rng s;
     tq_n := tq_n s; fs := fs s |}.

Definition set_steps (n v : Z) (s : state) : state :=
  {| model_state := model_state s; training := training s; grad := grad s;
     optimizer := optimizer s;
     step := n; validation_step := v;
     mean_rr_loss := mean_rr_loss s; mean_accuracy_1 := mean_accuracy_1 s;
     mean_accuracy_2 := mean_accuracy_2 s; mean_accuracy_3 := mean_accuracy_3 s;
     torch_rng := torch_rng s; np_rng := np_rng s; py_rng := py_rng s;
     tq_n := tq_n s; fs := fs s |}.

Definition set_mean_rr_loss (m : float) (s : state) : state :=
  {| model_state := model_state s; training := training s; grad := grad s;
     optimizer := optimizer s;
     step := step s; validation_step := validation_step s;
     mean_rr_loss := Some m; mean_accuracy_1 := mean_accuracy_1 s;
     mean_accuracy_2 := mean_accuracy_2 s; mean_accuracy_3 := mean_accuracy_3 s;
     torch_rng := torch_rng s; np_rng := np_rng s; py_rng := py_rng s;
     tq_n := tq_n s; fs := fs s |}.

Definition set_mean_accuracy (m1 m2 m3 : float) (s : state) : state :=
  {| model_state := model_state s; training := training s; grad := grad s;
     optimizer := optimizer s;
     step := step s; validation_step := validation_step s;
     mean_rr_loss := mean_rr_loss s; mean_accuracy_1 := Some m1;
     mean_accuracy_2 := Some m2; mean_accuracy_3 := Some m3;
     torch_rng := torch_rng s; np_rng := np_rng s; py_rng := py_rng s;
     tq_n := tq_n s; fs := fs s |}.

Definition set_rng (t n p : generator) (s : state) : state :=
  {| model_state := model_state s; training := training s; grad := grad s;
     optimizer := optimizer s;
     step := step s; validation_step := validation_step s;
     mean_rr_loss := mean_rr_loss s; mean_accuracy_1 := mean_accuracy_1 s;
     mean_accuracy_2 := mean_accuracy_2 s; mean_accuracy_3 := mean_accuracy_3 s;
     torch_rng := t; np_rng := n; py_rng := p;
     tq_n := tq_n s; fs := fs s |}.

Definition set_tq_n (n : Z) (s : state) : state :=
  {| model_state := model_state s; training := training s; grad := grad s;
     optimizer := optimizer s;
     step := step s; validation_step := validation_step s;
     mean_rr_loss := mean_rr_loss s; mean_accuracy_1 := mean_accuracy_1 s;
     mean_accuracy_2 := mean_accuracy_2 s; mean_accuracy_3 := mean_accuracy_3 s;
     torch_rng := torch_rng s; np_rng := np_rng s; py_rng := py_rng s;
     tq_n := n; fs := fs s |}.

Definition set_fs (f : gmap path file) (s : state) : state :=
  {| model_state := model_state s; training := training s; grad := grad s;
     optimizer := optimizer s;
     step := step s; validation_step := validation_step s;
     mean_rr_loss := mean_rr_loss s; mean_accuracy_1 := mean_accuracy_1 s;
     mean_accuracy_2 := mean_accuracy_2 s; mean_accuracy_3 := mean_accuracy_3 s;
     torch_rng := torch_rng s; np_rng := np_rng s; py_rng := py_rng s;
     tq_n := tq_n s; fs := f |}.

(** ** Collaborator calls that change the script's objects *)

(** [lr_scheduler.batch_step(batch_iteration)]: the learning rate of
    the schedule at that iteration is written into the optimizer's
    parameter groups. *)
Definition batch_step (sch : cyclic_lr_t) (batch_iteration : Z) (o : optimizer_t)
  : optimizer_t :=
  {| opt_lr := cyclic_lr (base_lr sch) (max_lr sch) batch_iteration;
     opt_momentum := opt_momentum o;
     opt_buffers := opt_buffers o |}.

(** [optimizer.step()] on the model's parameters and their gradients. *)
Definition optimizer_step (s : state) : state :=
  let o := optimizer s in
  let r := sgd_step (opt_lr o) (opt_momentum o) (opt_buffers o) (model_state s) (grad s) in
  set_model (fst r)
    {| opt_lr := opt_lr o; opt_momentum := opt_momentum o; opt_buffers := snd r |} s.

(** The three reseeding statements. *)
Definition seed_all (n : Z) (s : state) : state :=
  set_rng (seed_generator n) (seed_generator n) (seed_generator n) s.

Definition seed_events (n : Z) : list event :=
  [EvManualSeed n; EvNpSeed n; EvRandomSeed n].

(** ** One training iteration (the body of the loop over [train_loader]) *)

(** The loss of a batch under given parameters, as the body computes
    it. *)
Definition rr_loss (a : args) (ms : gmap string tensor) (b : batch_t) : scalar :=
  let feature_maps_1 := forward ms (colors_1 b) in
  let feature_maps_2 := forward ms (colors_2 b) in
  let response_map_2 :=
    response_map_generator (matching_scale a) (matching_threshold a)
      feature_maps_1 feature_maps_2 (feature_1D_locations_1 b) (boundaries b) in
  let response_map_1 :=
    response_map_generator (matching_scale a) (matching_threshold a)
      feature_maps_2 feature_maps_1 (feature_1D_locations_2 b) (boundaries b) in
  let rr_loss_1 :=
    relative_response_loss response_map_1 (feature_1D_locations_1 b) (boundaries b) in
  let rr_loss_2 :=
    relative_response_loss response_map_2 (feature_1D_locations_2 b) (boundaries b) in
  smul (rr_weight a) (sadd (smul 0.5 rr_loss_1) (smul 0.5 rr_loss_2)).

(** [(mean * batch + x) / (batch + 1.0)] in binary64 *)
Definition running_mean (mean : float) (batch : Z) (x : float) : float :=
  PrimFloat.div
    (PrimFloat.add (PrimFloat.mul mean (float_of_int batch)) x)
    (PrimFloat.add (float_of_int batch) 1).

Definition train_iteration (cfg : config) (cur_epoch batch : Z) (b : batch_t) (s : state)
  : list event * result :=
  let a := cfg_args cfg in
  (* Update learning rate *)
  let s := set_model (model_state s)
             (batch_step (lr_scheduler cfg) (step s) (optimizer s)) s in
  let feature_maps_1 := forward (model_state s) (colors_1 b) in
  let feature_maps_2 := forward (model_state s) (colors_2 b) in
  let response_map_2 :=
    response_map_generator (matching_scale a) (matching_threshold a)
      feature_maps_1 feature_maps_2 (feature_1D_locations_1 b) (boundaries b) in
  let response_map_1 :=
    response_map_generator (matching_scale a) (matching_threshold a)
      feature_maps_2 feature_maps_1 (feature_1D_locations_2 b) (boundaries b) in
  let rr_loss_1 :=
    relative_response_loss response_map_1 (feature_1D_locations_1 b) (boundaries b) in
  let rr_loss_2 :=
    relative_response_loss response_map_2 (feature_1D_locations_2 b) (boundaries b) in
  let rr_loss := smul (rr_weight a) (sadd (smul 0.5 rr_loss_1) (smul 0.5 rr_loss_2)) in
  let computed :=
    [EvBatchStep (step s);
     EvForward (colors_1 b); EvForward (colors_2 b);
     EvResponseMap feature_maps_1 feature_maps_2 (feature_1D_locations_1 b) (boundaries b);
     EvResponseMap feature_maps_2 feature_maps_1 (feature_1D_locations_2 b) (boundaries b);
     EvRelativeResponseLoss response_map_1 (feature_1D_locations_1 b) (boundaries b);
     EvRelativeResponseLoss response_map_2 (feature_1D_locations_2 b) (boundaries b)] in
  (* Handle nan cases *)
  if isnan (item rr_loss) || isinf (item rr_loss) then
    let s := set_grad (zero_grad (grad s)) s in
    let s := set_grad (backward rr_loss (grad s)) s in
    let s := set_grad (zero_grad (grad s)) s in
    let s := set_tq_n (tq_n s + batch_size a) s in
    (computed ++ [EvZeroGrad; EvBackward rr_loss; EvZeroGrad; EvTqUpdate (batch_size a)],
     Done s)
  else
    let s := set_grad (zero_grad (grad s)) s in
    let s := set_grad (backward rr_loss (grad s)) s in
    let s := set_grad (clip_grad_norm_ 10 (grad s)) s in
    let s := optimizer_step s in
    let updated :=
      computed ++ [EvZeroGrad; EvBackward rr_loss; EvClipGradNorm 10; EvOptimizerStep] in
    let mean :=
      if batch =? 0 then Some (item rr_loss)
      else match mean_rr_loss s with
           | Some m => Some (running_mean m batch (item rr_loss))
           | None => None
           end in
    match mean with
    | None => (updated, Raised (NameError "mean_rr_loss") s)
    | Some m =>
        let s := set_mean_rr_loss m s in
        (* Result display *)
        if display_interval a =? 0 then (updated, Raised ZeroDivisionError s)
        else
          let shown :=
            if batch `mod` display_interval a =? 0
            then [EvDisplayResults "Train" (step s)] else [] in
          let s := set_steps (step s + 1) (validation_step s) s in
          let s := set_tq_n (tq_n s + shape0 (colors_1 b)) s in
          (updated ++ shown ++
             [EvTqUpdate (shape0 (colors_1 b)); EvAddScalars "Train" [("loss", m)] (step s)],
           Done s)
    end.

(** [for batch, (...) in enumerate(train_loader)], from index [batch]
    on.  An exception ends the loop. *)
Fixpoint train_loop (cfg : config) (cur_epoch batch : Z) (bs : list batch_t) (s : state)
  : list event * result :=
  match bs with
  | [] => ([], Done s)
  | b :: bs' =>
      match train_iteration cfg cur_epoch batch b s with
      | (evs, Done s') =>
          let rest := train_loop cfg cur_epoch (batch + 1) bs' s' in
          (evs ++ fst rest, snd rest)
      | (evs, Raised e s') => (evs, Raised e s')
      end
  end.

(** The training half of an epoch. *)
Definition train_phase (cfg : config) (cur_epoch : Z) (s : state) : list event * result :=
  let a := cfg_args cfg in
  (* Set the seed correlated to epoch for reproducibility *)
  let s := seed_all (10086 + cur_epoch) s in
  let s := set_training true s in
  let s := set_tq_n 0 s in
  let batches :=
    loader_batches true (train_dataset cfg) (batch_size a)
      (torch_rng s) (np_rng s) (py_rng s) in
  let s := set_rng (loader_draws true (train_dataset cfg) (batch_size a) (torch_rng s))
             (np_rng s) (py_rng s) s in
  let looped := train_loop cfg cur_epoch 0 batches s in
  let evs := seed_events (10086 + cur_epoch) ++ [EvTrainMode; EvTqdm] ++ fst looped in
  match snd looped with
  | Done s => (evs ++ [EvTqClose], Done s)
  | Raised e s => (evs, Raised e s)
  end.

(** ** One validation iteration (the body of the loop over [val_loader]) *)

Definition lookup_name (name : string) (v : option float) : exn + float :=
  match v with
  | Some x => inr x
  | None => inl (NameError name)
  end.

Definition validation_iteration (cfg : config) (cur_epoch batch : Z) (b : batch_t)
  (s : state) : list event * result :=
  let a := cfg_args cfg in
  let feature_maps_1 := forward (model_state s) (colors_1 b) in
  let feature_maps_2 := forward (model_state s) (colors_2 b) in
  let response_map_2 :=
    response_map_generator (matching_scale a) (matching_threshold a)
      feature_maps_1 feature_maps_2 (feature_1D_locations_1 b) (boundaries b) in
  let response_map_1 :=
    response_map_generator (matching_scale a) (matching_threshold a)
      feature_maps_2 feature_maps_1 (feature_1D_locations_2 b) (boundaries b) in
  let computed :=
    [EvForward (colors_1 b); EvForward (colors_2 b);
     EvResponseMap feature_maps_1 feature_maps_2 (feature_1D_locations_1 b) (boundaries b);
     EvResponseMap feature_maps_2 feature_maps_1 (feature_1D_locations_2 b) (boundaries b)] in
  (* Result display *)
  if display_interval a =? 0 then (computed, Raised ZeroDivisionError s)
  else
    let shown :=
      if batch `mod` display_interval a =? 0
      then [EvDisplayResults "Validation" (validation_step s)] else [] in
    let ratios_123 :=
      matching_accuracy_metric 5 response_map_1 (feature_2D_locations_1 b) (boundaries b) in
    let ratios_456 :=
      matching_accuracy_metric 5 response_map_2 (feature_2D_locations_2 b) (boundaries b) in
    let accuracy_1 := sadd (smul 0.5 ratios_123.1.1) (smul 0.5 ratios_456.1.1) in
    let accuracy_2 := sadd (smul 0.5 ratios_123.1.2) (smul 0.5 ratios_456.1.2) in
    let accuracy_3 := sadd (smul 0.5 ratios_123.2) (smul 0.5 ratios_456.2) in
    let measured :=
      computed ++ shown ++
      [EvMatchingAccuracy response_map_1 (feature_2D_locations_1 b) (boundaries b);
       EvMatchingAccuracy response_map_2 (feature_2D_locations_2 b) (boundaries b)] in
    let means :=
      if batch =? 0 then inr (item accuracy_1, item accuracy_2, item accuracy_3)
      else
        match lookup_name "mean_accuracy_1" (mean_accuracy_1 s) with
        | inl e => inl e
        | inr m1 =>
            match lookup_name "mean_accuracy_2" (mean_accuracy_2 s) with
            | inl e => inl e
            | inr m2 =>
                match lookup_name "mean_accuracy_3" (mean_accuracy_3 s) with
                | inl e => inl e
                | inr m3 =>
                    inr (running_mean m1 batch (item accuracy_1),
                         running_mean m2 batch (item accuracy_2),
                         running_mean m3 batch (item accuracy_3))
                end
            end
        end in
    match means with
    | inl e => (measured, Raised e s)
    | inr (m1, m2, m3) =>
        let s := set_mean_accuracy m1 m2 m3 s in
        let s := set_steps (step s) (validation_step s + 1) s in
        let s := set_tq_n (tq_n s + shape0 (colors_1 b)) s in
        (measured ++
           [EvTqUpdate (shape0 (colors_1 b));
            EvAddScalars "Validation"
              [("accuracy_1", m1); ("accuracy_2", m2); ("accuracy_3", m3)]
              (validation_step s)],
         Done s)
    end.

Fixpoint validation_loop (cfg : config) (cur_epoch batch : Z) (bs : list batch_t)
  (s : state) : list event * result :=
  match bs with
  | [] => ([], Done s)
  | b :: bs' =>
      match validation_iteration cfg cur_epoch batch b s with
      | (evs, Done s') =>
          let rest := validation_loop cfg cur_epoch (batch + 1) bs' s' in
          (evs ++ fst rest, snd rest)
      | (evs, Raised e s') => (evs, Raised e s')
      end
  end.

(** ** The checkpoint at the end of a validation pass *)

(** ['checkpoint_model_epoch_{}_{}_{}_{}.pt'.format(...)] *)
Definition checkpoint_name (cur_epoch : Z) (m1 m2 m3 : float) : string :=
  "checkpoint_model_epoch_" +:+ str_int cur_epoch +:+ "_" +:+ str_float m1 +:+ "_"
    +:+ str_float m2 +:+ "_" +:+ str_float m3 +:+ ".pt".

(** Modelled from the spec: [utils.save_model] is not among the
    sources.  It persists one checkpoint file holding the model
    weights, the optimizer state, the epoch, the step and the
    validation metric it is given. *)
Definition save_model (model : gmap string tensor) (opt : optimizer_t) (epoch step : Z)
  (model_path : path) (validation_loss : float) (f : gmap path file)
  : checkpoint * gmap path file :=
  let ck := {| ck_model := model; ck_optimizer := opt; ck_epoch := epoch;
               ck_step := step; ck_validation := validation_loss |} in
  (ck, <[model_path := CheckpointFile ck]> f).

(** The validating half of an epoch. *)
Definition validation_phase (cfg : config) (cur_epoch : Z) (s : state)
  : list event * result :=
  let a := cfg_args cfg in
  let s := set_training false s in
  let s := set_tq_n 0 s in
  let s := seed_all 10086 s in
  let batches :=
    loader_batches false (train_dataset cfg) (batch_size a)
      (torch_rng s) (np_rng s) (py_rng s) in
  let s := set_rng (loader_draws false (train_dataset cfg) (batch_size a) (torch_rng s))
             (np_rng s) (py_rng s) s in
  let looped := validation_loop cfg cur_epoch 0 batches s in
  let evs := [EvEvalMode; EvTqdm] ++ seed_events 10086 ++ fst looped in
  match snd looped with
  | Raised e s => (evs, Raised e s)
  | Done s =>
      match mean_accuracy_1 s, mean_accuracy_2 s, mean_accuracy_3 s with
      | Some m1, Some m2, Some m3 =>
          let model_path_epoch :=
            path_join (cfg_log_root cfg) (checkpoint_name cur_epoch m1 m2 m3) in
          let saved :=
            save_model (model_state s) (optimizer s) (cur_epoch + 1) (step s)
              model_path_epoch m1 (fs s) in
          let s := set_fs (snd saved) s in
          (evs ++ [EvTqClose; EvSaveModel (fst saved) model_path_epoch; EvWriterClose],
           Done s)
      | None, _, _ => (evs ++ [EvTqClose], Raised (NameError "mean_accuracy_1") s)
      | _, None, _ => (evs ++ [EvTqClose], Raised (NameError "mean_accuracy_2") s)
      | _, _, None => (evs ++ [EvTqClose], Raised (NameError "mean_accuracy_3") s)
      end
  end.

(** ** Epochs *)

(** The body of [for cur_epoch in range(epoch, args.num_epoch + 1)]. *)
Definition run_epoch (cfg : config) (cur_epoch : Z) (s : state) : list event * result :=
  let trained := train_phase cfg cur_epoch s in
  match snd trained with
  | Raised e s => (fst trained, Raised e s)
  | Done s =>
      if validation_interval (cfg_args cfg) =? 0
      then (fst trained, Raised ZeroDivisionError s)
      else if negb (cur_epoch `mod` validation_interval (cfg_args cfg) =? 0)
      then (fst trained, Done s)
      else
        (* Validation *)
        let validated := validation_phase cfg cur_epoch s in
        (fst trained ++ fst validated, snd validated)
  end.

Fixpoint run_epochs (cfg : config) (epochs : list Z) (s : state) : list event * result :=
  match epochs with
  | [] => ([], Done s)
  | cur_epoch :: later =>
      match run_epoch cfg cur_epoch s with
      | (evs, Done s') =>
          let rest := run_epochs cfg later s' in
          (evs ++ fst rest, snd rest)
      | (evs, Raised e s') => (evs, Raised e s')
      end
  end.

(** ** Start-up: everything before the loop over epochs *)

(** [Path.exists()]; the empty path is the current directory. *)
Definition path_exists (f : gmap path file) (p : path) : bool :=
  match p with
  | [] => true
  | _ => bool_decide (is_Some (f !! p))
  end.

(** [Path.mkdir()]: the parent has to exist, the path must not. *)
Definition mkdir (f : gmap path file) (p : path) : exn + gmap path file :=
  if path_exists f p then inl FileExistsError
  else if path_exists f (removelast p) then inr (<[p := Directory]> f)
  else inl FileNotFoundError.

Fixpoint ancestors (p : path) : list path :=
  match p with
  | [] => []
  | x :: p' => [x] :: map (cons x) (ancestors p')
  end.

(** [Path.mkdir(parents=True)] on a path that does not exist, and the
    directory creation of [SummaryWriter(logdir)]: the missing
    ancestors and the path itself become directories. *)
Definition makedirs (f : gmap path file) (p : path) : gmap path file :=
  foldl (fun f q => if path_exists f q then f else <[q := Directory]> f) f (ancestors p).

(** The [state_dict] after the name-matching restore: the entries of
    the checkpoint whose key the model has replace the model's own. *)
Definition restore_model (saved current : gmap string tensor) : gmap string tensor :=
  let trained_model_state := filter (fun kv => is_Some (current !! kv.1)) saved in
  trained_model_state ∪ current.

(** How start-up ends: ready to train from an epoch, or aborted by an
    exception with the file system as it is then. *)
Inductive started : Type :=
| Ready (cfg : config) (epoch : Z) (s : state)
| Aborted (e : exn) (f : gmap path file).

Definition run_name (now : datetime) : string :=
  "dense_descriptor_train_" +:+ str_int (month now) +:+ "_" +:+ str_int (day now) +:+ "_"
    +:+ str_int (hour now) +:+ "_" +:+ str_int (minute now).

(** The directories created before the network is built. *)
Definition prepare_directories (a : args) (now : datetime) (f : gmap path file)
  : exn + gmap path file :=
  match (if negb (path_exists f (log_root a)) then mkdir f (log_root a) else inr f) with
  | inl e => inl e
  | inr f =>
      let log_root := path_join (log_root a) (run_name now) in
      let f := makedirs f log_root in
      inr (if negb (path_exists f (precompute_root a))
           then makedirs f (precompute_root a) else f)
  end.

(** The literal [0.9]: the binary64 number nearest to nine tenths. *)
Definition momentum_0_9 : float := 0x1.ccccccccccccdp-1.

Definition startup (a : args) (now : datetime) (f : gmap path file)
  : list event * started :=
  let checked_path :=
    if load_trained_model a then
      match trained_model_path a with
      | Some p => inr (Some p)
      | None => inl IOError
      end
    else inr None in
  match checked_path with
  | inl e => ([], Aborted e f)
  | inr trained_model_path =>
  if negb (path_exists f (data_root a))
  then ([EvPrint "specified training data root does not exist"], Aborted IOError f)
  else
  (* Fix randomness for reproducibility *)
  let evs := seed_events 10085 in
  match prepare_directories a now f with
  | inl e => (evs, Aborted e f)
  | inr f =>
  let log_root := path_join (log_root a) (run_name now) in
  let evs := evs ++ [EvSummaryWriter log_root; EvBuildDataset; EvBuildModel] in
  let train_dataset := build_dataset a in
  let model := init_net a (seed_generator 10085) in
  let summarised :=
    if display_architecture a then
      match index (input_size a) 0 with
      | inl e => inl e
      | inr h =>
          match index (input_size a) 1 with
          | inl e => inl e
          | inr w => inr [EvSummary h w]
          end
      end
    else inr [] in
  match summarised with
  | inl e => (evs, Aborted e f)
  | inr shown =>
  let evs := evs ++ shown in
  (* Optimizer *)
  match index (lr_range a) 1 with
  | inl e => (evs, Aborted e f)
  | inr lr1 =>
  let optimizer := {| opt_lr := lr1; opt_momentum := momentum_0_9; opt_buffers := sgd_init |} in
  match index (lr_range a) 0 with
  | inl e => (evs, Aborted e f)
  | inr lr0 =>
  let cfg := {| cfg_args := a; cfg_log_root := log_root;
                lr_scheduler := {| base_lr := lr0; max_lr := lr1 |};
                train_dataset := train_dataset |} in
  let fresh (model : gmap string tensor) (step : Z) :=
    {| model_state := model; training := true; grad := grad_none;
       optimizer := optimizer; step := step; validation_step := 0;
       mean_rr_loss := None; mean_accuracy_1 := None;
       mean_accuracy_2 := None; mean_accuracy_3 := None;
       torch_rng := seed_generator 10085; np_rng := seed_generator 10085;
       py_rng := seed_generator 10085; tq_n := 0; fs := f |} in
  (* Load trained model *)
  match trained_model_path with
  | Some p =>
      if path_exists f p then
        match f !! p with
        | Some (CheckpointFile pre_trained_state) =>
            let step := ck_step pre_trained_state in
            let epoch := ck_epoch pre_trained_state in
            let model_state := restore_model (ck_model pre_trained_state) model in
            (evs ++ [EvTorchLoad p], Ready cfg epoch (fresh model_state step))
        | _ => (evs ++ [EvTorchLoad p], Aborted UnpicklingError f)
        end
      else (evs ++ [EvPrint "No trained model detected"], Aborted OSError f)
  | None => (evs, Ready cfg 0 (fresh model 0))
  end
  end end end end end.

(** The whole script: the events, the uncaught exception if any, and
    the file system at the end. *)
Definition main (a : args) (now : datetime) (f : gmap path file)
  : list event * option exn * gmap path file :=
  match startup a now f with
  | (evs, Aborted e f) => (evs, Some e, f)
  | (evs, Ready cfg epoch s) =>
      let ran := run_epochs cfg (range epoch (num_epoch a + 1)) s in
      match snd ran with
      | Done s => (evs ++ fst ran, None, fs s)
      | Raised e s => (evs ++ fst ran, Some e, fs s)
      end
  end.

End Orchestrator.

(** ** Classifying events *)

Section Events.

Context `{C : Collaborators}.

(** the calls that touch gradients or parameters *)
Definition is_update (e : event) : bool :=
  match e with
  | EvZeroGrad | EvBackward _ | EvClipGradNorm _ | EvOptimizerStep => true
  | _ => false
  end.

Definition is_response_map (e : event) : bool :=
  match e with
  | EvResponseMap _ _ _ _ => true
  | _ => false
  end.

Definition is_save_model (e : event) : bool :=
  match e with
  | EvSaveModel _ _ => true
  | _ => false
  end.

Definition is_add_scalars (e : event) : bool :=
  match e with
  | EvAddScalars _ _ _ => true
  | _ => false
  end.

(** the calls only a validation pass makes *)
Definition is_validation (e : event) : bool :=
  match e with
  | EvEvalMode | EvMatchingAccuracy _ _ _ | EvSaveModel _ _ => true
  | _ => false
  end.

Definition is_seed (e : event) : bool :=
  match e with
  | EvManualSeed _ | EvNpSeed _ | EvRandomSeed _ => true
  | _ => false
  end.

(** the calls an epoch makes on the network, the optimizer and the
    checkpoint writer *)
Definition is_training_work (e : event) : bool :=
  match e with
  | EvTrainMode | EvEvalMode | EvBatchStep _ | EvForward _ | EvBackward _
  | EvZeroGrad | EvOptimizerStep | EvSaveModel _ _ => true
  | _ => false
  end.

(** what the events of a training loop are not: calls of a validation
    pass, reseedings *)
Definition training_event (e : event) : Prop :=
  is_validation e = false /\ is_seed e = false.

(** what the events of a validation loop are not: checkpoint writes,
    reseedings, calls on gradients or parameters *)
Definition measuring_event (e : event) : Prop :=
  is_save_model e = false /\ is_seed e = false /\ is_update e = false.

(** The three running means, once all three names are bound. *)
Definition accuracies (s : state) : option (float * float * float) :=
  match mean_accuracy_1 s, mean_accuracy_2 s, mean_accuracy_3 s with
  | Some m1, Some m2, Some m3 => Some (m1, m2, m3)
  | _, _, _ => None
  end.

(** The three accuracies of one batch under given parameters, as the
    validation body computes them. *)
Definition batch_accuracies (a : args) (ms : gmap string tensor) (b : batch_t)
  : float * float * float :=
  let feature_maps_1 := forward ms (colors_1 b) in
  let feature_maps_2 := forward ms (colors_2 b) in
  let response_map_2 :=
    response_map_generator (matching_scale a) (matching_threshold a)
      feature_maps_1 feature_maps_2 (feature_1D_locations_1 b) (boundaries b) in
  let response_map_1 :=
    response_map_generator (matching_scale a) (matching_threshold a)
      feature_maps_2 feature_maps_1 (feature_1D_locations_2 b) (boundaries b) in
  let ratios_123 :=
    matching_accuracy_metric 5 response_map_1 (feature_2D_locations_1 b) (boundaries b) in
  let ratios_456 :=
    matching_accuracy_metric 5 response_map_2 (feature_2D_locations_2 b) (boundaries b) in
  (item (sadd (smul 0.5 ratios_123.1.1) (smul 0.5 ratios_456.1.1)),
   item (sadd (smul 0.5 ratios_123.1.2) (smul 0.5 ratios_456.1.2)),
   item (sadd (smul 0.5 ratios_123.2) (smul 0.5 ratios_456.2))).

(** One more batch averaged into the three running means. *)
Definition average_in (acc : float * float * float) (batch : Z) (x : float * float * float)
  : float * float * float :=
  (running_mean acc.1.1 batch x.1.1,
   running_mean acc.1.2 batch x.1.2,
   running_mean acc.2 batch x.2).

(** The running means after the batches [bs], which start at index
    [batch], when they were [acc] before. *)
Fixpoint mean_accuracies_from (a : args) (ms : gmap string tensor) (batch : Z)
  (bs : list batch_t) (acc : float * float * float) : float * float * float :=
  match bs with
  | [] => acc
  | b :: bs' =>
      mean_accuracies_from a ms (batch + 1) bs' (average_in acc batch (batch_accuracies a ms b))
  end.

(** The validation metrics of a pass over [bs] from its first batch. *)
Definition mean_accuracies (a : args) (ms : gmap string tensor) (bs : list batch_t)
  : option (float * float * float) :=
  match bs with
  | [] => None
  | b :: bs' => Some (mean_accuracies_from a ms 1 bs' (batch_accuracies a ms b))
  end.

(** The batches of a validation pass and of the training pass of an
    epoch: what the loaders yield under the seeds set just before. *)
Definition validation_batches (cfg : config) : list batch_t :=
  loader_batches false (train_dataset cfg) (batch_size (cfg_args cfg))
    (seed_generator 10086) (seed_generator 10086) (seed_generator 10086).

Definition training_batches (cfg : config) (cur_epoch : Z) : list batch_t :=
  loader_batches true (train_dataset cfg) (batch_size (cfg_args cfg))
    (seed_generator (10086 + cur_epoch)) (seed_generator (10086 + cur_epoch))
    (seed_generator (10086 + cur_epoch)).

(** The state in which the training loop of an epoch is entered, and
    the state in which a validation loop is entered. *)
Definition epoch_start (cfg : config) (cur_epoch : Z) (s : state) : state :=
  set_rng
    (loader_draws true (train_dataset cfg) (batch_size (cfg_args cfg))
       (seed_generator (10086 + cur_epoch)))
    (seed_generator (10086 + cur_epoch)) (seed_generator (10086 + cur_epoch))
    (set_tq_n 0 (set_training true (seed_all (10086 + cur_epoch) s))).

Definition validation_start (cfg : config) (s : state) : state :=
  set_rng
    (loader_draws false (train_dataset cfg) (batch_size (cfg_args cfg)) (seed_generator 10086))
    (seed_generator 10086) (seed_generator 10086)
    (seed_all 10086 (set_tq_n 0 (set_training false s))).

(** The checkpoint a validating epoch writes, given the state at the end
    of its validation loop. *)
Definition epoch_checkpoint (cur_epoch : Z) (s : state) (m1 : float) : checkpoint :=
  {| ck_model := model_state s; ck_optimizer := optimizer s; ck_epoch := cur_epoch + 1;
     ck_step := step s; ck_validation := m1 |}.

(** What a validation pass leaves alone. *)
Definition same_training_state (s s' : state) : Prop :=
  model_state s' = model_state s /\ optimizer s' = optimizer s /\ grad s' = grad s
  /\ step s' = step s /\ mean_rr_loss s' = mean_rr_loss s /\ fs s' = fs s.

(** the losses [backward()] was called on *)
Definition backpropagated (evs : list event) : list scalar :=
  omap (fun e => match e with EvBackward loss => Some loss | _ => None end) evs.

Implicit Types (cfg : config) (s : state) (b : batch_t).


(** The events up to the NaN test. *)
Definition computed_events cfg b s : list event :=
  let a := cfg_args cfg in
  let feature_maps_1 := forward (model_state s) (colors_1 b) in
  let feature_maps_2 := forward (model_state s) (colors_2 b) in
  let locations_1 := feature_1D_locations_1 b in
  let locations_2 := feature_1D_locations_2 b in
  let generate := response_map_generator (matching_scale a) (matching_threshold a) in
  [EvBatchStep (step s);
   EvForward (colors_1 b); EvForward (colors_2 b);
   EvResponseMap feature_maps_1 feature_maps_2 locations_1 (boundaries b);
   EvResponseMap feature_maps_2 feature_maps_1 locations_2 (boundaries b);
   EvRelativeResponseLoss (generate feature_maps_2 feature_maps_1 locations_2 (boundaries b))
     locations_1 (boundaries b);
   EvRelativeResponseLoss (generate feature_maps_1 feature_maps_2 locations_1 (boundaries b))
     locations_2 (boundaries b)].

(** The state once the scheduler has written the learning rate. *)
Definition scheduled cfg s : state :=
  set_model (model_state s) (batch_step (lr_scheduler cfg) (step s) (optimizer s)) s.

(** The state after the statements of the NaN branch. *)
Definition skipped cfg b s : state :=
  let loss := rr_loss (cfg_args cfg) (model_state s) b in
  set_tq_n (tq_n s + batch_size (cfg_args cfg))
    (set_grad (zero_grad (backward loss (zero_grad (grad s)))) (scheduled cfg s)).

(** The state after the four update statements of the other branch. *)
Definition stepped cfg b s : state :=
  let loss := rr_loss (cfg_args cfg) (model_state s) b in
  optimizer_step
    (set_grad (clip_grad_norm_ 10 (backward loss (zero_grad (grad s)))) (scheduled cfg s)).

(** the optimizer steps among the events *)
Definition is_optimizer_step (e : event) : bool :=
  match e with
  | EvOptimizerStep => true
  | _ => false
  end.

(** The step indices under which scalars were logged with a main tag
    (['Train'] or ['Validation']). *)
Definition logged_steps (main_tag : string) (evs : list event) : list Z :=
  omap (fun e => match e with
                 | EvAddScalars tag _ n => if String.eqb tag main_tag then Some n else None
                 | _ => None
                 end) evs.

(** The exception a piece of the script ended in, if any. *)
Definition exception_of (r : result) : option exn :=
  match r with
  | Done _ => None
  | Raised e _ => Some e
  end.

(** 0 when a piece of the script fell through, 1 when it raised. *)
Definition raised (r : result) : Z :=
  match r with
  | Done _ => 0
  | Raised _ _ => 1
  end.

End Events.

(** ** A small instance to run the script on

    One-pixel images whose value is a float, a network that returns its
    input, a response map that multiplies the two feature values, and a
    loss that returns the response: a NaN pixel gives a NaN loss.  The
    gradients and the momentum buffer are integers that count calls. *)

Module Toy.

(** Modelled from the spec: [models.CyclicLR] is not among the sources.
    The learning rate is a triangular wave over the batch iteration: a
    linear ramp from [base_lr] up to [max_lr] over [step_size]
    iterations, then a linear ramp down over as many. *)
Definition triangular_lr (step_size : Z) (base_lr max_lr : float) (it : Z) : float :=
  let pos := it `mod` (2 * step_size) in
  let up := if pos <=? step_size then pos else 2 * step_size - pos in
  PrimFloat.add base_lr
    (PrimFloat.mul (PrimFloat.sub max_lr base_lr)
       (PrimFloat.div (float_of_int up) (float_of_int step_size))).

Definition toy_str_float (x : float) : string :=
  if PrimFloat.is_nan x then "nan"
  else if PrimFloat.eqb x 1 then "1.0"
  else if PrimFloat.eqb x 0.5 then "0.5"
  else "x".

(** [data shuffle seed]: the batches a loader yields when the torch
    generator was last seeded with [seed]. *)
Definition toy (data : bool -> Z -> list (float * float)) : Collaborators := {|
  image := float;
  locs1d := unit;
  locs2d := unit;
  heatmap := unit;
  mask := unit;
  tensor := Z;
  feature_map := float;
  response_map := float;
  scalar := float;
  grads := Z;
  opt_state := Z;
  generator := Z;
  dataset := bool -> Z -> list (float * float);
  batch_t := float * float;
  colors_1 := fst;
  colors_2 := snd;
  feature_1D_locations_1 := fun _ => tt;
  feature_1D_locations_2 := fun _ => tt;
  feature_2D_locations_1 := fun _ => tt;
  feature_2D_locations_2 := fun _ => tt;
  gt_heatmaps_1 := fun _ => tt;
  gt_heatmaps_2 := fun _ => tt;
  boundaries := fun _ => tt;
  shape0 := fun _ => 2;
  forward := fun _ x => x;
  response_map_generator := fun _ _ x y _ _ => PrimFloat.mul x y;
  relative_response_loss := fun r _ _ => r;
  matching_accuracy_metric := fun _ r _ _ => (r, r, r);
  smul := PrimFloat.mul;
  sadd := PrimFloat.add;
  item := fun x => x;
  grad_none := 0;
  zero_grad := fun _ => 0;
  backward := fun _ g => g + 1;
  clip_grad_norm_ := fun _ g => g;
  sgd_init := 0;
  sgd_step := fun _ _ buf ms g => ((fun t => t - g) <$> ms, buf + g);
  cyclic_lr := triangular_lr 2;
  seed_generator := fun n => n;
  init_net := fun _ _ => {[ "conv.weight" := 3; "conv.bias" := 1 ]};
  build_dataset := fun _ => data;
  loader_batches := fun shuffle ds _ t _ _ => ds shuffle t;
  loader_draws := fun _ _ _ t => t + 1;
  str_float := toy_str_float
|}.

Definition nan : float := PrimFloat.div 0 0.

(** a batch with a finite loss and a batch with a NaN loss *)
Definition good_batch : float * float := (1%float, 1%float).
Definition bad_batch : float * float := (nan, 1%float).

Definition toy_args : args := {|
  adjacent_range := [1; 50];
  image_downsampling := 4;
  network_downsampling := 64;
  input_size := [256; 320];
  batch_size := 8;
  num_workers := 8;
  lr_range := [0.5%float; 1%float];
  inlier_percentage := 1;
  display_interval := 10;
  validation_interval := 1;
  training_patient_id := [1];
  load_intermediate_data := false;
  load_trained_model := false;
  num_epoch := 1;
  num_iter := 2;
  heatmap_sigma := 5;
  visibility_overlap := 20;
  display_architecture := false;
  trained_model_path := None;
  data_root := ["data"];
  sampling_size := 10;
  log_root := ["logs"];
  feature_length := 128;
  filter_growth_rate := 10;
  matching_scale := 20;
  matching_threshold := 0.5;
  rr_weight := 1;
  cross_check_distance := 5;
  precompute_root := ["cache"; "pre"]
|}.

Definition toy_now : datetime := {| month := 11; day := 4; hour := 9; minute := 30 |}.

(** Loaders: two clean batches per pass; a NaN batch first in every
    training pass; a NaN batch first in every training pass but that of
    epoch 0. *)
Definition steady (shuffle : bool) (seed : Z) : list (float * float) :=
  [good_batch; good_batch].

Definition early_nan (shuffle : bool) (seed : Z) : list (float * float) :=
  if shuffle then [bad_batch; good_batch] else [good_batch].

Definition late_nan (shuffle : bool) (seed : Z) : list (float * float) :=
  if shuffle then (if seed =? 10086 then [good_batch] else [bad_batch; good_batch])
  else [good_batch].

(** The data root exists and nothing else. *)
Definition toy_fs (data : bool -> Z -> list (float * float))
  : gmap path (@file (toy data)) :=
  {[ ["data"] := @Directory (toy data) ]}.

Definition toy_cfg (data : bool -> Z -> list (float * float)) : @config (toy data) :=
  @Build_config (toy data) toy_args ["logs"; "run"]
    (Build_cyclic_lr_t 0.5 1) data.

Definition fresh_optimizer (data : bool -> Z -> list (float * float))
  : @optimizer_t (toy data) :=
  @Build_optimizer_t (toy data) 1 momentum_0_9 0.

(** The state a fresh run enters its first epoch with: the initial
    weights, no gradients, step 0, no running mean bound, every
    generator seeded with 10085, and the file system above. *)
Definition toy_state (data : bool -> Z -> list (float * float)) : @state (toy data) :=
  @Build_state (toy data)
    {[ "conv.weight" := 3; "conv.bias" := 1 ]} true 0 (fresh_optimizer data)
    0 0 None None None None 10085 10085 10085 0 (toy_fs data).

(** A run that is asked to resume. *)
Definition resume_args (p : path) : args := {|
  adjacent_range := adjacent_range toy_args;
  image_downsampling := image_downsampling toy_args;
  network_downsampling := network_downsampling toy_args;
  input_size := input_size toy_args;
  batch_size := batch_size toy_args;
  num_workers := num_workers toy_args;
  lr_range := lr_range toy_args;
  inlier_percentage := inlier_percentage toy_args;
  display_interval := display_interval toy_args;
  validation_interval := validation_interval toy_args;
  training_patient_id := training_patient_id toy_args;
  load_intermediate_data := load_intermediate_data toy_args;
  load_trained_model := true;
  num_epoch := num_epoch toy_args;
  num_iter := num_iter toy_args;
  heatmap_sigma := heatmap_sigma toy_args;
  visibility_overlap := visibility_overlap toy_args;
  display_architecture := display_architecture toy_args;
  trained_model_path := Some p;
  data_root := data_root toy_args;
  sampling_size := sampling_size toy_args;
  log_root := log_root toy_args;
  feature_length := feature_length toy_args;
  filter_growth_rate := filter_growth_rate toy_args;
  matching_scale := matching_scale toy_args;
  matching_threshold := matching_threshold toy_args;
  rr_weight := rr_weight toy_args;
  cross_check_distance := cross_check_distance toy_args;
  precompute_root := precompute_root toy_args
|}.

(** A checkpoint of an earlier run: one weight of the model, one entry
    the model does not have, and an optimizer that has taken steps. *)
Definition old_checkpoint : @checkpoint (toy steady) :=
  @Build_checkpoint (toy steady)
    {[ "conv.weight" := 7; "head.weight" := 9 ]}
    (@Build_optimizer_t (toy steady) 0.75 momentum_0_9 5)
    3 40 1.

Definition resume_fs : gmap path (@file (toy steady)) :=
  {[ ["data"] := @Directory (toy steady);
     ["old.pt"] := @CheckpointFile (toy steady) old_checkpoint ]}.

(** What start-up makes of that request, and the state it hands to the
    loop over epochs. *)
Definition resumed : @started (toy steady) :=
  snd (startup (resume_args ["old.pt"]) toy_now resume_fs).

Definition resumed_state : @state (toy steady) :=
  match resumed with
  | Ready _ _ s => s
  | Aborted _ _ => toy_state steady
  end.

(** A state with the weights of the fresh run and other counters,
    other generator states, another progress count. *)
Definition other_state : @state (toy steady) :=
  set_tq_n 99 (set_steps 12 3 (seed_all 1 (toy_state steady))).

(** The state after one clean iteration of a fresh run. *)
Definition stepped_state : @state (toy steady) :=
  result_state (snd (train_iteration (toy_cfg steady) 0 0 good_batch (toy_state steady))).

(** Arguments that differ from [toy_args] in the display interval, the
    validation interval, the learning-rate bounds and the log root. *)
Definition custom_args (display validation : Z) (lrs : list float) (logs : path) : args := {|
  adjacent_range := adjacent_range toy_args;
  image_downsampling := image_downsampling toy_args;
  network_downsampling := network_downsampling toy_args;
  input_size := input_size toy_args;
  batch_size := batch_size toy_args;
  num_workers := num_workers toy_args;
  lr_range := lrs;
  inlier_percentage := inlier_percentage toy_args;
  display_interval := display;
  validation_interval := validation;
  training_patient_id := training_patient_id toy_args;
  load_intermediate_data := load_intermediate_data toy_args;
  load_trained_model := false;
  num_epoch := num_epoch toy_args;
  num_iter := num_iter toy_args;
  heatmap_sigma := heatmap_sigma toy_args;
  visibility_overlap := visibility_overlap toy_args;
  display_architecture := display_architecture toy_args;
  trained_model_path := None;
  data_root := data_root toy_args;
  sampling_size := sampling_size toy_args;
  log_root := logs;
  feature_length := feature_length toy_args;
  filter_growth_rate := filter_growth_rate toy_args;
  matching_scale := matching_scale toy_args;
  matching_threshold := matching_threshold toy_args;
  rr_weight := rr_weight toy_args;
  cross_check_distance := cross_check_distance toy_args;
  precompute_root := precompute_root toy_args
|}.

Definition custom_cfg (data : bool -> Z -> list (float * float)) (display validation : Z)
  : @config (toy data) :=
  @Build_config (toy data) (custom_args display validation [0.5%float; 1%float] ["logs"])
    ["logs"; "run"] (Build_cyclic_lr_t 0.5 1) data.

(** A loader whose validation pass yields nothing. *)
Definition no_validation (shuffle : bool) (seed : Z) : list (float * float) :=
  if shuffle then [good_batch] else [].

(** The parts of a start-up that ended ready. *)
Definition started_cfg (r : @started (toy steady)) : @config (toy steady) :=
  match r with
  | Ready cfg _ _ => cfg
  | Aborted _ _ => toy_cfg steady
  end.

Definition started_epoch (r : @started (toy steady)) : Z :=
  match r with
  | Ready _ epoch _ => epoch
  | Aborted _ _ => 0
  end.

Definition started_state (r : @started (toy steady)) : @state (toy steady) :=
  match r with
  | Ready _ _ s => s
  | Aborted _ _ => toy_state steady
  end.

End Toy.

(** ** The two paths of a training iteration *)

Section TrainingIteration.

Context `{C : Collaborators}.

Implicit Types (cfg : config) (s : state) (b : batch_t).

Lemma train_iteration_nonfinite cfg cur_epoch batch b s :
  nonfinite (item (rr_loss (cfg_args cfg) (model_state s) b)) = true ->
  train_iteration cfg cur_epoch batch b s =
    (computed_events cfg b s ++
       [EvZeroGrad; EvBackward (rr_loss (cfg_args cfg) (model_state s) b); EvZeroGrad;
        EvTqUpdate (batch_size (cfg_args cfg))],
     Done (skipped cfg b s)).
Proof.
  intros Hnan. unfold nonfinite, rr_loss in Hnan.
  unfold train_iteration. cbn zeta. cbn [model_state set_model].
  rewrite Hnan. reflexivity.
Qed.

Lemma train_iteration_finite cfg cur_epoch batch b s :
  nonfinite (item (rr_loss (cfg_args cfg) (model_state s) b)) = false ->
  let a := cfg_args cfg in
  let loss := rr_loss a (model_state s) b in
  let updated :=
    computed_events cfg b s ++
      [EvZeroGrad; EvBackward loss; EvClipGradNorm 10; EvOptimizerStep] in
  let s1 := stepped cfg b s in
  train_iteration cfg cur_epoch batch b s =
    match (if batch =? 0 then Some (item loss)
           else match mean_rr_loss s with
                | Some m => Some (running_mean m batch (item loss))
                | None => None
                end) with
    | None => (updated, Raised (NameError "mean_rr_loss") s1)
    | Some m =>
        if display_interval a =? 0
        then (updated, Raised ZeroDivisionError (set_mean_rr_loss m s1))
        else
          (updated ++
             (if batch `mod` display_interval a =? 0
              then [EvDisplayResults "Train" (step s)] else []) ++
             [EvTqUpdate (shape0 (colors_1 b)); EvAddScalars "Train" [("loss", m)] (step s + 1)],
           Done (set_tq_n (tq_n s + shape0 (colors_1 b))
                   (set_steps (step s + 1) (validation_step s) (set_mean_rr_loss m s1))))
    end.
Proof.
  intros Hfin. unfold nonfinite, rr_loss in Hfin.
  unfold train_iteration. cbn zeta. cbn [model_state set_model].
  rewrite Hfin. reflexivity.
Qed.

End TrainingIteration.

(** Case analysis over the paths of one training iteration. *)
Ltac iteration_cases cfg cur_epoch batch b s :=
  let Hfin := fresh "Hfin" in
  destruct (nonfinite (item (rr_loss (cfg_args cfg) (model_state s) b))) eqn:Hfin;
  [ rewrite (train_iteration_nonfinite cfg cur_epoch batch b s Hfin)
  | rewrite (train_iteration_finite cfg cur_epoch batch b s Hfin); cbn zeta;
    destruct (batch =? 0); [ | destruct (mean_rr_loss s) ];
    try destruct (display_interval (cfg_args cfg) =? 0);
    try destruct (batch `mod` display_interval (cfg_args cfg) =? 0) ].

(** ** What one training iteration does *)

Section TrainingIterationProperties.

Context `{C : Collaborators}.

Implicit Types (cfg : config) (s : state) (b : batch_t).

(** C5: in every training iteration the response-map generator is called
    exactly twice, once from frame 1 to frame 2 and once from frame 2 to
    frame 1; the two relative-response losses are added with weights 0.5
    and 0.5 and the sum is multiplied by [rr_weight]; that product is the
    loss the iteration backpropagates. *)
Theorem symmetric_loss_combination cfg cur_epoch batch b s :
  let a := cfg_args cfg in
  let generate := response_map_generator (matching_scale a) (matching_threshold a) in
  let feature_maps_1 := forward (model_state s) (colors_1 b) in
  let feature_maps_2 := forward (model_state s) (colors_2 b) in
  let locations_1 := feature_1D_locations_1 b in
  let locations_2 := feature_1D_locations_2 b in
  let response_map_2 := generate feature_maps_1 feature_maps_2 locations_1 (boundaries b) in
  let response_map_1 := generate feature_maps_2 feature_maps_1 locations_2 (boundaries b) in
  let rr_loss_1 := relative_response_loss response_map_1 locations_1 (boundaries b) in
  let rr_loss_2 := relative_response_loss response_map_2 locations_2 (boundaries b) in
  let loss := smul (rr_weight a) (sadd (smul 0.5 rr_loss_1) (smul 0.5 rr_loss_2)) in
  let evs := fst (train_iteration cfg cur_epoch batch b s) in
  List.filter is_response_map evs =
    [EvResponseMap feature_maps_1 feature_maps_2 locations_1 (boundaries b);
     EvResponseMap feature_maps_2 feature_maps_1 locations_2 (boundaries b)]
  /\ rr_loss a (model_state s) b = loss
  /\ backpropagated evs = [loss].
Proof.
  cbn zeta. split; [ | split; [ reflexivity | ] ].
  - iteration_cases cfg cur_epoch batch b s; reflexivity.
  - iteration_cases cfg cur_epoch batch b s; reflexivity.
Qed.

(** C6: in every training iteration with a finite loss the calls on
    gradients and parameters are exactly [zero_grad], [backward],
    [clip_grad_norm_] with ceiling 10.0 and [step], in this order: the
    step consumes the clipped gradients of this loss alone, under the
    learning rate the scheduler has just set.  This holds whether or not
    a later statement of the iteration raises. *)
Theorem finite_loss_update_sequence cfg cur_epoch batch b s :
  let loss := rr_loss (cfg_args cfg) (model_state s) b in
  nonfinite (item loss) = false ->
  let run := train_iteration cfg cur_epoch batch b s in
  let s' := result_state (snd run) in
  let o := batch_step (lr_scheduler cfg) (step s) (optimizer s) in
  let g := clip_grad_norm_ 10 (backward loss (zero_grad (grad s))) in
  let stepped := sgd_step (opt_lr o) (opt_momentum o) (opt_buffers o) (model_state s) g in
  List.filter is_update (fst run) =
    [EvZeroGrad; EvBackward loss; EvClipGradNorm 10; EvOptimizerStep]
  /\ grad s' = g
  /\ model_state s' = fst stepped
  /\ opt_buffers (optimizer s') = snd stepped.
Proof.
  cbn zeta. intros Hfin.
  rewrite (train_iteration_finite cfg cur_epoch batch b s Hfin). cbn zeta.
  destruct (batch =? 0); [ | destruct (mean_rr_loss s) ];
    try destruct (display_interval (cfg_args cfg) =? 0);
    try destruct (batch `mod` display_interval (cfg_args cfg) =? 0);
    repeat split; reflexivity.
Qed.

(** C1, as the code has it: in every training iteration whose loss is
    NaN or infinite the calls on gradients and parameters are exactly
    [zero_grad], [backward], [zero_grad]; there is no optimizer step and
    the loop goes on with the next batch.  The model parameters and the
    optimizer's momentum buffers and momentum are what they were before
    the iteration; the one optimizer field that is written is the
    learning rate, which the scheduler sets from the global step at the
    top of the iteration. *)
Theorem nan_guard_skips_update cfg cur_epoch batch b bs s :
  let loss := rr_loss (cfg_args cfg) (model_state s) b in
  nonfinite (item loss) = true ->
  exists evs s',
    train_iteration cfg cur_epoch batch b s = (evs, Done s')
    /\ List.filter is_update evs = [EvZeroGrad; EvBackward loss; EvZeroGrad]
    /\ model_state s' = model_state s
    /\ opt_buffers (optimizer s') = opt_buffers (optimizer s)
    /\ opt_momentum (optimizer s') = opt_momentum (optimizer s)
    /\ opt_lr (optimizer s') =
         cyclic_lr (base_lr (lr_scheduler cfg)) (max_lr (lr_scheduler cfg)) (step s)
    /\ grad s' = zero_grad (backward loss (zero_grad (grad s)))
    /\ train_loop cfg cur_epoch batch (b :: bs) s =
         (evs ++ fst (train_loop cfg cur_epoch (batch + 1) bs s'),
          snd (train_loop cfg cur_epoch (batch + 1) bs s')).
Proof.
  cbn zeta. intros Hnan.
  eexists. exists (skipped cfg b s).
  split; [ apply train_iteration_nonfinite; exact Hnan | ].
  repeat split.
  cbn [train_loop]. rewrite (train_iteration_nonfinite cfg cur_epoch batch b s Hnan).
  reflexivity.
Qed.

(** C2, as the code has it: in every training iteration whose loss is
    NaN or infinite the progress bar advances by [batch_size], and that
    is all the progress that is recorded: the global step, the running
    mean of the loss and the validation step keep their values and
    nothing is written to the log. *)
Theorem nan_guard_progress cfg cur_epoch batch b s :
  nonfinite (item (rr_loss (cfg_args cfg) (model_state s) b)) = true ->
  exists evs s',
    train_iteration cfg cur_epoch batch b s = (evs, Done s')
    /\ last evs = Some (EvTqUpdate (batch_size (cfg_args cfg)))
    /\ tq_n s' = tq_n s + batch_size (cfg_args cfg)
    /\ step s' = step s
    /\ mean_rr_loss s' = mean_rr_loss s
    /\ validation_step s' = validation_step s
    /\ List.filter is_add_scalars evs = [].
Proof.
  intros Hnan. eexists. exists (skipped cfg b s).
  split; [ apply train_iteration_nonfinite; exact Hnan | ].
  repeat split.
Qed.

End TrainingIterationProperties.

(** ** The training loop *)

Section TrainingLoop.

Context `{C : Collaborators}.

Implicit Types (cfg : config) (s : state) (b : batch_t).

Lemma train_iteration_events cfg cur_epoch batch b s :
  Forall training_event (fst (train_iteration cfg cur_epoch batch b s)).
Proof.
  iteration_cases cfg cur_epoch batch b s; cbn [fst]; repeat constructor.
Qed.

Lemma train_loop_events cfg cur_epoch bs :
  forall batch s, Forall training_event (fst (train_loop cfg cur_epoch batch bs s)).
Proof.
  induction bs as [|b bs IH]; intros batch s; cbn [train_loop].
  - constructor.
  - pose proof (train_iteration_events cfg cur_epoch batch b s) as Hit.
    destruct (train_iteration cfg cur_epoch batch b s) as [evs [s'|x s']]; cbn [fst snd] in *.
    + apply Forall_app; split; [ exact Hit | apply IH ].
    + exact Hit.
Qed.

Lemma filter_none (p : event -> bool) (evs : list event) :
  Forall (fun ev => p ev = false) evs -> List.filter p evs = [].
Proof.
  induction 1 as [|ev evs Hev _ IH]; cbn [List.filter]; [ reflexivity | ].
  rewrite Hev. exact IH.
Qed.

Lemma exists_none (p : event -> bool) (evs : list event) :
  Forall (fun ev => p ev = false) evs -> existsb p evs = false.
Proof.
  induction 1 as [|ev evs Hev _ IH]; cbn [existsb]; [ reflexivity | ].
  rewrite Hev, IH. reflexivity.
Qed.

Lemma validation_is_save (ev : event) : is_validation ev = false -> is_save_model ev = false.
Proof. destruct ev; intros Hev; try discriminate Hev; reflexivity. Qed.

(** A run of batches with non-finite losses is passed over: the loop
    arrives at the batch behind them with the parameters, the running
    mean and the step it started with. *)
Lemma train_loop_nonfinite_prefix cfg cur_epoch nans :
  forall batch bs s,
    Forall (fun b => nonfinite (item (rr_loss (cfg_args cfg) (model_state s) b)) = true) nans ->
    exists evs s',
      let next := batch + Z.of_nat (length nans) in
      train_loop cfg cur_epoch batch (nans ++ bs) s =
        (evs ++ fst (train_loop cfg cur_epoch next bs s'),
         snd (train_loop cfg cur_epoch next bs s'))
      /\ model_state s' = model_state s
      /\ mean_rr_loss s' = mean_rr_loss s
      /\ step s' = step s
      /\ List.filter is_add_scalars evs = [].
Proof.
  induction nans as [|b nans IH]; intros batch bs s Hnans.
  - exists [], s. cbn [length app Z.of_nat]. rewrite Z.add_0_r.
    repeat split. destruct (train_loop cfg cur_epoch batch bs s); reflexivity.
  - apply Forall_cons in Hnans as [Hb Hnans].
    destruct (IH (batch + 1) bs (skipped cfg b s) Hnans)
      as (evs & s' & Hloop & Hms & Hmean & Hstep & Hlog).
    cbn zeta in Hloop.
    replace (batch + 1 + Z.of_nat (length nans))
      with (batch + Z.of_nat (length (b :: nans))) in Hloop
      by (cbn [length]; lia).
    eexists. exists s'. cbn zeta.
    rewrite <- app_comm_cons. cbn [train_loop].
    rewrite (train_iteration_nonfinite cfg cur_epoch batch b s Hb).
    rewrite Hloop. cbn [fst snd].
    split; [ rewrite app_assoc; reflexivity | ].
    repeat split; assumption.
Qed.

(** C10, as the code has it: when the first batches of a training epoch
    have NaN or infinite losses and a later batch has a finite one, the
    running-mean update at the first finite batch reads [mean_rr_loss],
    which this epoch has not assigned.  If no earlier epoch of the run
    has assigned it either, the read raises [NameError], after the
    optimizer step of that batch and before the step counter moves.  If
    an earlier epoch has assigned it, there is no [NameError]: the value
    that epoch left is averaged in and the loop goes on. *)
Theorem first_finite_batch_after_nan cfg cur_epoch nans b rest s :
  nans <> [] ->
  Forall (fun b' => nonfinite (item (rr_loss (cfg_args cfg) (model_state s) b')) = true) nans ->
  nonfinite (item (rr_loss (cfg_args cfg) (model_state s) b)) = false ->
  let batch := Z.of_nat (length nans) in
  let loss := rr_loss (cfg_args cfg) (model_state s) b in
  (mean_rr_loss s = None ->
   exists s',
     snd (train_loop cfg cur_epoch 0 (nans ++ b :: rest) s) = Raised (NameError "mean_rr_loss") s'
     /\ step s' = step s
     /\ last (List.filter is_update (fst (train_loop cfg cur_epoch 0 (nans ++ b :: rest) s)))
        = Some EvOptimizerStep)
  /\ (forall m,
        mean_rr_loss s = Some m ->
        display_interval (cfg_args cfg) <> 0 ->
        exists evs s',
          train_loop cfg cur_epoch 0 (nans ++ b :: rest) s =
            (evs ++ fst (train_loop cfg cur_epoch (batch + 1) rest s'),
             snd (train_loop cfg cur_epoch (batch + 1) rest s'))
          /\ mean_rr_loss s' = Some (running_mean m batch (item loss))
          /\ step s' = step s + 1).
Proof.
  intros Hne Hnans Hfin. cbn zeta.
  destruct (train_loop_nonfinite_prefix cfg cur_epoch nans 0 (b :: rest) s Hnans)
    as (evs & s0 & Hloop & Hms & Hmean & Hstep & _).
  cbn zeta in Hloop. rewrite Z.add_0_l in Hloop.
  assert (Hbatch : (Z.of_nat (length nans) =? 0) = false).
  { destruct nans; [ congruence | cbn [length]; apply Z.eqb_neq; lia ]. }
  rewrite <- Hms in Hfin.
  pose proof (train_iteration_finite cfg cur_epoch (Z.of_nat (length nans)) b s0 Hfin) as Hit.
  cbn zeta in Hit. rewrite Hbatch, Hmean in Hit.
  split.
  - intros Hnone. rewrite Hnone in Hit.
    rewrite Hloop. cbn [train_loop]. rewrite Hit. cbn [fst snd].
    eexists. split; [ reflexivity | ]. split; [ exact Hstep | ].
    rewrite !List.filter_app. cbn [List.filter is_update].
    rewrite app_assoc.
    match goal with
    | |- last (?l ++ [?e1; ?e2; ?e3; ?e4]) = _ =>
        change (l ++ [e1; e2; e3; e4]) with (l ++ ([e1; e2; e3] ++ [e4]))
    end.
    rewrite app_assoc. apply last_snoc.
  - intros m Hsome Hdisplay. rewrite Hsome in Hit.
    apply Z.eqb_neq in Hdisplay. rewrite Hdisplay in Hit.
    rewrite Hloop. cbn [train_loop]. rewrite Hit. cbn [fst snd].
    eexists. eexists. split; [ rewrite app_assoc; reflexivity | ].
    rewrite <- Hms. split; [ reflexivity | ]. cbn. rewrite Hstep. reflexivity.
Qed.

End TrainingLoop.


(** ** The validation loop *)

Section ValidationLoop.

Context `{C : Collaborators}.

Implicit Types (cfg : config) (s : state) (b : batch_t).

Lemma validation_iteration_first cfg cur_epoch b s :
  display_interval (cfg_args cfg) <> 0 ->
  exists evs s',
    validation_iteration cfg cur_epoch 0 b s = (evs, Done s')
    /\ accuracies s' = Some (batch_accuracies (cfg_args cfg) (model_state s) b)
    /\ same_training_state s s'
    /\ Forall measuring_event evs.
Proof.
  intros Hdi. apply Z.eqb_neq in Hdi.
  unfold validation_iteration. cbn zeta. rewrite Hdi. cbn [Z.eqb].
  destruct (0 `mod` display_interval (cfg_args cfg) =? 0);
    (eexists; eexists; split; [ reflexivity | ]);
    (split; [ reflexivity | ]);
    (split; [ repeat split | repeat constructor ]).
Qed.

Lemma validation_iteration_next cfg cur_epoch batch b s acc :
  display_interval (cfg_args cfg) <> 0 ->
  0 < batch ->
  accuracies s = Some acc ->
  exists evs s',
    validation_iteration cfg cur_epoch batch b s = (evs, Done s')
    /\ accuracies s' =
         Some (average_in acc batch (batch_accuracies (cfg_args cfg) (model_state s) b))
    /\ same_training_state s s'
    /\ Forall measuring_event evs.
Proof.
  intros Hdi Hpos Hacc. apply Z.eqb_neq in Hdi.
  assert (Hbatch : (batch =? 0) = false) by (apply Z.eqb_neq; lia).
  unfold accuracies in Hacc.
  destruct (mean_accuracy_1 s) as [m1|] eqn:H1; [ | discriminate ].
  destruct (mean_accuracy_2 s) as [m2|] eqn:H2; [ | discriminate ].
  destruct (mean_accuracy_3 s) as [m3|] eqn:H3; [ | discriminate ].
  injection Hacc as <-.
  unfold validation_iteration. cbn zeta. rewrite Hdi, Hbatch, H1, H2, H3.
  cbn [lookup_name].
  destruct (batch `mod` display_interval (cfg_args cfg) =? 0);
    (eexists; eexists; split; [ reflexivity | ]);
    (split; [ reflexivity | ]);
    (split; [ repeat split | repeat constructor ]).
Qed.

Lemma same_training_state_trans s1 s2 s3 :
  same_training_state s1 s2 -> same_training_state s2 s3 -> same_training_state s1 s3.
Proof.
  unfold same_training_state.
  intros (-> & -> & -> & -> & -> & ->) (-> & -> & -> & -> & -> & ->). repeat split.
Qed.

Lemma validation_loop_next cfg cur_epoch bs :
  forall batch s acc,
    display_interval (cfg_args cfg) <> 0 ->
    0 < batch ->
    accuracies s = Some acc ->
    exists evs s',
      validation_loop cfg cur_epoch batch bs s = (evs, Done s')
      /\ accuracies s' = Some (mean_accuracies_from (cfg_args cfg) (model_state s) batch bs acc)
      /\ same_training_state s s'
      /\ Forall measuring_event evs.
Proof.
  induction bs as [|b bs IH]; intros batch s acc Hdi Hpos Hacc; cbn [validation_loop].
  - exists [], s. repeat split; [ exact Hacc | constructor ].
  - destruct (validation_iteration_next cfg cur_epoch batch b s acc Hdi Hpos Hacc)
      as (evs1 & s1 & Hit & Hacc1 & Hsame1 & Hevs1).
    destruct (IH (batch + 1) s1 _ Hdi ltac:(lia) Hacc1)
      as (evs2 & s2 & Hloop & Hacc2 & Hsame2 & Hevs2).
    rewrite Hit, Hloop. cbn [fst snd].
    eexists. exists s2. split; [ reflexivity | ].
    split; [ | split ].
    + rewrite Hacc2. cbn [mean_accuracies_from].
      destruct Hsame1 as [-> _]. reflexivity.
    + exact (same_training_state_trans _ _ _ Hsame1 Hsame2).
    + apply Forall_app; split; assumption.
Qed.

Lemma validation_iteration_events cfg cur_epoch batch b s :
  Forall measuring_event (fst (validation_iteration cfg cur_epoch batch b s)).
Proof.
  unfold validation_iteration. cbn zeta.
  destruct (display_interval (cfg_args cfg) =? 0); [ repeat constructor | ].
  destruct (batch `mod` display_interval (cfg_args cfg) =? 0);
    (destruct (batch =? 0);
     [ | destruct (mean_accuracy_1 s); cbn [lookup_name];
         [ destruct (mean_accuracy_2 s);
           [ destruct (mean_accuracy_3 s) | ] | ] ]);
    repeat constructor.
Qed.

Lemma validation_loop_events cfg cur_epoch bs :
  forall batch s, Forall measuring_event (fst (validation_loop cfg cur_epoch batch bs s)).
Proof.
  induction bs as [|b bs IH]; intros batch s; cbn [validation_loop].
  - constructor.
  - pose proof (validation_iteration_events cfg cur_epoch batch b s) as Hit.
    destruct (validation_iteration cfg cur_epoch batch b s) as [evs [s'|x s']];
      cbn [fst snd] in *.
    + apply Forall_app; split; [ exact Hit | apply IH ].
    + exact Hit.
Qed.

(** A validation loop from its first batch ends normally, and the three
    running means it leaves are a function of the parameters and the
    batches alone. *)
Lemma validation_loop_means cfg cur_epoch bs s :
  display_interval (cfg_args cfg) <> 0 ->
  bs <> [] ->
  exists evs s',
    validation_loop cfg cur_epoch 0 bs s = (evs, Done s')
    /\ accuracies s' = mean_accuracies (cfg_args cfg) (model_state s) bs
    /\ same_training_state s s'
    /\ Forall measuring_event evs.
Proof.
  intros Hdi Hbs. destruct bs as [|b bs]; [ congruence | ].
  cbn [validation_loop mean_accuracies].
  destruct (validation_iteration_first cfg cur_epoch b s Hdi)
    as (evs1 & s1 & Hit & Hacc1 & Hsame1 & Hevs1).
  destruct (validation_loop_next cfg cur_epoch bs 1 s1 _ Hdi ltac:(lia) Hacc1)
    as (evs2 & s2 & Hloop & Hacc2 & Hsame2 & Hevs2).
  rewrite Hit. change (0 + 1) with 1. rewrite Hloop. cbn [fst snd].
  eexists. exists s2. split; [ reflexivity | ].
  split; [ | split ].
  - rewrite Hacc2. destruct Hsame1 as [-> _]. reflexivity.
  - exact (same_training_state_trans _ _ _ Hsame1 Hsame2).
  - apply Forall_app; split; assumption.
Qed.

End ValidationLoop.

(** ** Epochs *)

Section Epochs.

Context `{C : Collaborators}.

Implicit Types (cfg : config) (s : state) (b : batch_t).

Lemma train_phase_unfold cfg cur_epoch s :
  train_phase cfg cur_epoch s =
    let looped :=
      train_loop cfg cur_epoch 0 (training_batches cfg cur_epoch) (epoch_start cfg cur_epoch s) in
    let evs := seed_events (10086 + cur_epoch) ++ [EvTrainMode; EvTqdm] ++ fst looped in
    match snd looped with
    | Done s' => (evs ++ [EvTqClose], Done s')
    | Raised e s' => (evs, Raised e s')
    end.
Proof. reflexivity. Qed.

Lemma train_phase_events cfg cur_epoch s :
  exists rest,
    fst (train_phase cfg cur_epoch s) = seed_events (10086 + cur_epoch) ++ rest
    /\ Forall training_event rest.
Proof.
  rewrite train_phase_unfold. cbn zeta.
  pose proof (train_loop_events cfg cur_epoch (training_batches cfg cur_epoch) 0
                (epoch_start cfg cur_epoch s)) as Hloop.
  destruct (train_loop cfg cur_epoch 0 (training_batches cfg cur_epoch)
              (epoch_start cfg cur_epoch s)) as [evs [s'|x s']]; cbn [fst snd] in *.
  - eexists. split; [ rewrite <- app_assoc; reflexivity | ].
    rewrite <- app_assoc. repeat (apply Forall_cons; split; [ split; reflexivity | ]).
    apply Forall_app; split; [ exact Hloop | repeat constructor ].
  - eexists. split; [ reflexivity | ].
    repeat (apply Forall_cons; split; [ split; reflexivity | ]). exact Hloop.
Qed.

Lemma validation_phase_unfold cfg cur_epoch s :
  validation_phase cfg cur_epoch s =
    let looped :=
      validation_loop cfg cur_epoch 0 (validation_batches cfg) (validation_start cfg s) in
    let evs := [EvEvalMode; EvTqdm] ++ seed_events 10086 ++ fst looped in
    match snd looped with
    | Raised e s' => (evs, Raised e s')
    | Done s' =>
        match mean_accuracy_1 s', mean_accuracy_2 s', mean_accuracy_3 s' with
        | Some m1, Some m2, Some m3 =>
            let model_path_epoch :=
              path_join (cfg_log_root cfg) (checkpoint_name cur_epoch m1 m2 m3) in
            let ck := epoch_checkpoint cur_epoch s' m1 in
            (evs ++ [EvTqClose; EvSaveModel ck model_path_epoch; EvWriterClose],
             Done (set_fs (<[model_path_epoch := CheckpointFile ck]> (fs s')) s'))
        | None, _, _ => (evs ++ [EvTqClose], Raised (NameError "mean_accuracy_1") s')
        | _, None, _ => (evs ++ [EvTqClose], Raised (NameError "mean_accuracy_2") s')
        | _, _, None => (evs ++ [EvTqClose], Raised (NameError "mean_accuracy_3") s')
        end
    end.
Proof. reflexivity. Qed.

(** A validation pass over at least one batch ends normally, with one
    checkpoint written last. *)
Lemma validation_phase_done cfg cur_epoch s :
  display_interval (cfg_args cfg) <> 0 ->
  validation_batches cfg <> [] ->
  exists evs s' m1 m2 m3,
    let ck := epoch_checkpoint cur_epoch s m1 in
    let model_path_epoch := path_join (cfg_log_root cfg) (checkpoint_name cur_epoch m1 m2 m3) in
    validation_phase cfg cur_epoch s =
      ([EvEvalMode; EvTqdm] ++ seed_events 10086 ++ evs ++
         [EvTqClose; EvSaveModel ck model_path_epoch; EvWriterClose],
       Done (set_fs (<[model_path_epoch := CheckpointFile ck]> (fs s)) s'))
    /\ mean_accuracies (cfg_args cfg) (model_state s) (validation_batches cfg) = Some (m1, m2, m3)
    /\ accuracies s' = Some (m1, m2, m3)
    /\ same_training_state s s'
    /\ Forall measuring_event evs.
Proof.
  intros Hdi Hbs.
  destruct (validation_loop_means cfg cur_epoch (validation_batches cfg)
              (validation_start cfg s) Hdi Hbs)
    as (evs & s' & Hloop & Hacc & Hsame & Hevs).
  change (model_state (validation_start cfg s)) with (model_state s) in Hacc.
  assert (Hsame' : same_training_state s s') by exact Hsame.
  rewrite validation_phase_unfold. cbn zeta. rewrite Hloop. cbn [fst snd].
  unfold accuracies in Hacc.
  destruct (mean_accuracy_1 s') as [m1|] eqn:H1;
    [ | destruct (validation_batches cfg); [ congruence | discriminate Hacc ] ].
  destruct (mean_accuracy_2 s') as [m2|] eqn:H2;
    [ | destruct (validation_batches cfg); [ congruence | discriminate Hacc ] ].
  destruct (mean_accuracy_3 s') as [m3|] eqn:H3;
    [ | destruct (validation_batches cfg); [ congruence | discriminate Hacc ] ].
  exists evs, s', m1, m2, m3. cbn zeta.
  destruct Hsame' as (Hms & Hopt & _ & Hstep & _ & Hfs).
  unfold epoch_checkpoint. rewrite Hms, Hopt, Hstep, Hfs.
  split; [ rewrite <- !app_assoc; reflexivity | ].
  split; [ symmetry; exact Hacc | ].
  split; [ unfold accuracies; rewrite H1, H2, H3; reflexivity | ].
  split; [ exact Hsame | exact Hevs ].
Qed.

Lemma train_phase_no_save cfg cur_epoch s :
  List.filter is_save_model (fst (train_phase cfg cur_epoch s)) = [].
Proof.
  destruct (train_phase_events cfg cur_epoch s) as (rest & -> & Hrest).
  rewrite List.filter_app. cbn [seed_events List.filter is_save_model app].
  apply filter_none. eapply Forall_impl; [ exact Hrest | ].
  intros ev [Hev _]. apply validation_is_save, Hev.
Qed.

Lemma train_phase_no_validation cfg cur_epoch s :
  existsb is_validation (fst (train_phase cfg cur_epoch s)) = false.
Proof.
  destruct (train_phase_events cfg cur_epoch s) as (rest & -> & Hrest).
  rewrite existsb_app. cbn [seed_events existsb is_validation orb].
  apply exists_none. eapply Forall_impl; [ exact Hrest | ].
  intros ev [Hev _]. exact Hev.
Qed.

Lemma validation_phase_events cfg cur_epoch s :
  exists rest,
    fst (validation_phase cfg cur_epoch s) = [EvEvalMode; EvTqdm] ++ seed_events 10086 ++ rest
    /\ List.filter is_seed rest = [].
Proof.
  rewrite validation_phase_unfold. cbn zeta.
  pose proof (validation_loop_events cfg cur_epoch (validation_batches cfg) 0
                (validation_start cfg s)) as Hloop.
  assert (Hseed : List.filter is_seed
                    (fst (validation_loop cfg cur_epoch 0 (validation_batches cfg)
                            (validation_start cfg s))) = []).
  { apply filter_none. eapply Forall_impl; [ exact Hloop | ].
    intros ev (_ & Hev & _). exact Hev. }
  destruct (validation_loop cfg cur_epoch 0 (validation_batches cfg)
              (validation_start cfg s)) as [evs [s'|x s']]; cbn [fst snd] in *.
  - destruct (mean_accuracy_1 s'); [ destruct (mean_accuracy_2 s');
      [ destruct (mean_accuracy_3 s') | ] | ];
      cbn [fst]; (eexists; split; [ rewrite <- !app_assoc; reflexivity | ]);
      rewrite List.filter_app, Hseed; reflexivity.
  - eexists. split; [ reflexivity | exact Hseed ].
Qed.

Lemma run_epoch_trained cfg cur_epoch s s1 :
  validation_interval (cfg_args cfg) <> 0 ->
  snd (train_phase cfg cur_epoch s) = Done s1 ->
  run_epoch cfg cur_epoch s =
    if cur_epoch `mod` validation_interval (cfg_args cfg) =? 0
    then (fst (train_phase cfg cur_epoch s) ++ fst (validation_phase cfg cur_epoch s1),
          snd (validation_phase cfg cur_epoch s1))
    else (fst (train_phase cfg cur_epoch s), Done s1).
Proof.
  intros Hvi Htrain. apply Z.eqb_neq in Hvi.
  unfold run_epoch. cbn zeta. rewrite Htrain, Hvi.
  destruct (cur_epoch `mod` validation_interval (cfg_args cfg) =? 0); reflexivity.
Qed.

(** C9: when [validation_interval] is not zero and the training half of
    an epoch has ended normally, the validation pass (with its accuracy
    computation and its checkpoint) runs exactly when the epoch index
    modulo [validation_interval] is zero; on every other epoch the body
    ends there, in the state training left, and the loop over epochs goes
    on with the next one. *)
Theorem validation_gating cfg cur_epoch s s1 :
  let a := cfg_args cfg in
  validation_interval a <> 0 ->
  snd (train_phase cfg cur_epoch s) = Done s1 ->
  let run := run_epoch cfg cur_epoch s in
  (existsb is_validation (fst run) = true <-> cur_epoch `mod` validation_interval a = 0)
  /\ (cur_epoch `mod` validation_interval a = 0 ->
       run = (fst (train_phase cfg cur_epoch s) ++ fst (validation_phase cfg cur_epoch s1),
              snd (validation_phase cfg cur_epoch s1)))
  /\ (cur_epoch `mod` validation_interval a <> 0 ->
       run = (fst (train_phase cfg cur_epoch s), Done s1)
       /\ forall later,
            run_epochs cfg (cur_epoch :: later) s =
              (fst (train_phase cfg cur_epoch s) ++ fst (run_epochs cfg later s1),
               snd (run_epochs cfg later s1))).
Proof.
  cbn zeta. intros Hvi Htrain.
  pose proof (run_epoch_trained cfg cur_epoch s s1 Hvi Htrain) as Hrun.
  destruct (cur_epoch `mod` validation_interval (cfg_args cfg) =? 0) eqn:Hmod.
  - apply Z.eqb_eq in Hmod. split; [ | split ].
    + split; [ intros _; exact Hmod | intros _ ].
      rewrite Hrun. cbn [fst]. rewrite existsb_app.
      destruct (validation_phase_events cfg cur_epoch s1) as (rest & -> & _).
      cbn [app existsb is_validation]. apply orb_true_r.
    + intros _. exact Hrun.
    + intros Hne. contradiction.
  - apply Z.eqb_neq in Hmod. split; [ | split ].
    + rewrite Hrun. cbn [fst]. rewrite train_phase_no_validation.
      split; [ discriminate | intros Hz; contradiction ].
    + intros Hz. contradiction.
    + intros _. split; [ exact Hrun | ].
      intros later. cbn [run_epochs]. rewrite Hrun. reflexivity.
Qed.

(** C4: when a validating epoch (its index is a multiple of the non-zero
    [validation_interval]) has trained without an exception and its
    validation loader yields at least one batch, the epoch ends normally
    and persists exactly one checkpoint.  The checkpoint holds the model
    weights, the optimizer, the epoch number plus one, the global step
    and the first mean accuracy; its file name, under the log directory,
    spells the epoch number and the three mean accuracies. *)
Theorem checkpoint_at_validation_end cfg cur_epoch s s1 :
  let a := cfg_args cfg in
  validation_interval a <> 0 ->
  cur_epoch `mod` validation_interval a = 0 ->
  display_interval a <> 0 ->
  validation_batches cfg <> [] ->
  snd (train_phase cfg cur_epoch s) = Done s1 ->
  exists s' m1 m2 m3,
    let ck :=
      {| ck_model := model_state s1; ck_optimizer := optimizer s1;
         ck_epoch := cur_epoch + 1; ck_step := step s1; ck_validation := m1 |} in
    let model_path_epoch :=
      cfg_log_root cfg ++
        ["checkpoint_model_epoch_" +:+ str_int cur_epoch +:+ "_" +:+ str_float m1 +:+ "_"
           +:+ str_float m2 +:+ "_" +:+ str_float m3 +:+ ".pt"] in
    snd (run_epoch cfg cur_epoch s) = Done s'
    /\ accuracies s' = Some (m1, m2, m3)
    /\ mean_accuracies a (model_state s1) (validation_batches cfg) = Some (m1, m2, m3)
    /\ List.filter is_save_model (fst (run_epoch cfg cur_epoch s)) =
         [EvSaveModel ck model_path_epoch]
    /\ fs s' = <[model_path_epoch := CheckpointFile ck]> (fs s1)
    /\ model_state s' = model_state s1
    /\ optimizer s' = optimizer s1
    /\ step s' = step s1.
Proof.
  cbn zeta. intros Hvi Hmod Hdi Hbs Htrain.
  pose proof (run_epoch_trained cfg cur_epoch s s1 Hvi Htrain) as Hrun.
  apply Z.eqb_eq in Hmod. rewrite Hmod in Hrun.
  destruct (validation_phase_done cfg cur_epoch s1 Hdi Hbs)
    as (evs & s' & m1 & m2 & m3 & Hphase & Hmeans & Hacc & Hsame & Hevs).
  cbn zeta in Hphase.
  destruct Hsame as (Hms & Hopt & _ & Hstep & _ & _).
  eexists. exists m1, m2, m3.
  rewrite Hrun, Hphase. cbn [fst snd].
  split; [ reflexivity | ].
  split; [ exact Hacc | ].
  split; [ exact Hmeans | ].
  split; [ | repeat split; assumption ].
  rewrite List.filter_app, train_phase_no_save.
  cbn [app seed_events List.filter is_save_model].
  rewrite List.filter_app.
  rewrite (filter_none is_save_model evs).
  - reflexivity.
  - eapply Forall_impl; [ exact Hevs | ]. intros ev (Hev & _). exact Hev.
Qed.

(** C8: every training epoch begins by seeding the three generators with
    10086 plus the epoch number, and its batches are the ones the loader
    yields under those seeds; every validation pass seeds the three
    generators with 10086 before its first batch, and nothing in either
    pass seeds again.  So two validation passes under the same model
    parameters, whatever the epochs, steps, optimizers and generator
    states they start from, end with the same three mean accuracies. *)
Theorem reseeding cfg cur_epoch s :
  (exists rest,
     fst (train_phase cfg cur_epoch s) =
       [EvManualSeed (10086 + cur_epoch); EvNpSeed (10086 + cur_epoch);
        EvRandomSeed (10086 + cur_epoch)] ++ rest
     /\ List.filter is_seed rest = []
     /\ result_state (snd (train_phase cfg cur_epoch s)) =
          result_state
            (snd (train_loop cfg cur_epoch 0 (training_batches cfg cur_epoch)
                    (epoch_start cfg cur_epoch s))))
  /\ (exists rest,
        fst (validation_phase cfg cur_epoch s) =
          [EvEvalMode; EvTqdm; EvManualSeed 10086; EvNpSeed 10086; EvRandomSeed 10086] ++ rest
        /\ List.filter is_seed rest = [])
  /\ (forall other_epoch s2,
        model_state s2 = model_state s ->
        display_interval (cfg_args cfg) <> 0 ->
        validation_batches cfg <> [] ->
        exists s' s2' metrics,
          snd (validation_phase cfg cur_epoch s) = Done s'
          /\ snd (validation_phase cfg other_epoch s2) = Done s2'
          /\ accuracies s' = Some metrics
          /\ accuracies s2' = Some metrics).
Proof.
  split; [ | split ].
  - destruct (train_phase_events cfg cur_epoch s) as (rest & Hevs & Hrest).
    exists rest. split; [ exact Hevs | ]. split.
    + apply filter_none. eapply Forall_impl; [ exact Hrest | ].
      intros ev [_ Hev]. exact Hev.
    + rewrite train_phase_unfold. cbn zeta.
      destruct (snd (train_loop cfg cur_epoch 0 (training_batches cfg cur_epoch)
                       (epoch_start cfg cur_epoch s))); reflexivity.
  - destruct (validation_phase_events cfg cur_epoch s) as (rest & Hevs & Hrest).
    exists rest. split; [ exact Hevs | exact Hrest ].
  - intros other_epoch s2 Hms Hdi Hbs.
    destruct (validation_phase_done cfg cur_epoch s Hdi Hbs)
      as (evs & s' & m1 & m2 & m3 & Hphase & Hmeans & Hacc & _).
    destruct (validation_phase_done cfg other_epoch s2 Hdi Hbs)
      as (evs2 & s2' & n1 & n2 & n3 & Hphase2 & Hmeans2 & Hacc2 & _).
    cbn zeta in Hphase, Hphase2.
    rewrite Hms, Hmeans in Hmeans2. injection Hmeans2 as <- <- <-.
    eexists. eexists. exists (m1, m2, m3).
    rewrite Hphase, Hphase2. cbn [snd].
    split; [ reflexivity | ]. split; [ reflexivity | ].
    split; [ exact Hacc | exact Hacc2 ].
Qed.

End Epochs.

(** ** Start-up *)

Section Startup.

Context `{C : Collaborators}.

Implicit Types (a : args) (f : gmap path file).

Lemma restore_model_lookup (saved current : gmap string tensor) (k : string) :
  restore_model saved current !! k =
    match current !! k with
    | Some own => Some (default own (saved !! k))
    | None => None
    end.
Proof.
  unfold restore_model. cbn zeta. rewrite lookup_union.
  destruct (filter (fun kv => is_Some (current !! kv.1)) saved !! k) as [v|] eqn:Hf.
  - apply map_lookup_filter_Some in Hf as [Hsaved [own Hown]].
    cbn [fst] in Hown. rewrite Hown, Hsaved. reflexivity.
  - apply map_lookup_filter_None in Hf.
    destruct (current !! k) as [own|] eqn:Hown; [ | reflexivity ].
    destruct Hf as [-> | Hnot]; [ reflexivity | ].
    destruct (saved !! k) as [v|] eqn:Hsaved; [ | reflexivity ].
    exfalso. apply (Hnot v eq_refl). cbn [fst]. rewrite Hown. eexists; reflexivity.
Qed.

Lemma path_exists_lookup f (p : path) (x : file) :
  f !! p = Some x -> path_exists f p = true.
Proof.
  intros Hp. destruct p as [|c p]; [ reflexivity | ].
  cbn [path_exists]. apply bool_decide_eq_true. rewrite Hp. eexists; reflexivity.
Qed.

(** Creating directories leaves what exists as it is. *)
Lemma makedirs_lookup f (p q : path) (x : file) :
  f !! q = Some x -> makedirs f p !! q = Some x.
Proof.
  unfold makedirs. generalize (ancestors p) as dirs.
  intros dirs. revert f. induction dirs as [|d dirs IH]; intros f Hq; cbn [foldl].
  - exact Hq.
  - apply IH. destruct (path_exists f d) eqn:Hd; [ exact Hq | ].
    rewrite lookup_insert_ne; [ exact Hq | ].
    intros ->. rewrite (path_exists_lookup _ _ _ Hq) in Hd. discriminate Hd.
Qed.

Lemma mkdir_lookup f f' (p q : path) (x : file) :
  mkdir f p = inr f' -> f !! q = Some x -> f' !! q = Some x.
Proof.
  unfold mkdir. intros Hmk Hq.
  destruct (path_exists f p) eqn:Hp; [ discriminate Hmk | ].
  destruct (path_exists f (removelast p)); [ | discriminate Hmk ].
  injection Hmk as <-. rewrite lookup_insert_ne; [ exact Hq | ].
  intros ->. rewrite (path_exists_lookup _ _ _ Hq) in Hp. discriminate Hp.
Qed.

Lemma prepare_directories_lookup a now f f' (q : path) (x : file) :
  prepare_directories a now f = inr f' -> f !! q = Some x -> f' !! q = Some x.
Proof.
  unfold prepare_directories. intros Hprep Hq.
  destruct (negb (path_exists f (log_root a))).
  - destruct (mkdir f (log_root a)) as [e|f1] eqn:Hmk; [ discriminate Hprep | ].
    pose proof (mkdir_lookup _ _ _ _ _ Hmk Hq) as Hq1.
    injection Hprep as <-.
    destruct (negb (path_exists _ (precompute_root a)));
      repeat apply makedirs_lookup; exact Hq1.
  - injection Hprep as <-.
    destruct (negb (path_exists _ (precompute_root a)));
      repeat apply makedirs_lookup; exact Hq.
Qed.

Lemma index_lookup {A} (xs : list A) (i : nat) (x : A) :
  xs !! i = Some x -> index xs i = inr x.
Proof. intros Hx. unfold index. rewrite Hx. reflexivity. Qed.

(** The events of start-up up to the optimizer, when the architecture
    summary, if asked for, can be shown. *)
Lemma summary_shown a :
  (display_architecture a = true -> (2 <= length (input_size a))%nat) ->
  exists shown : list event,
    (if display_architecture a then
       match index (input_size a) 0 with
       | inl e => inl e
       | inr h =>
           match index (input_size a) 1 with
           | inl e => inl e
           | inr w => inr [EvSummary h w]
           end
       end
     else inr []) = inr shown
    /\ existsb is_training_work shown = false.
Proof.
  intros Hsize. destruct (display_architecture a).
  - specialize (Hsize eq_refl).
    destruct (input_size a) as [|h [|w rest]]; cbn [length] in Hsize; try lia.
    eexists. split; reflexivity.
  - eexists. split; reflexivity.
Qed.

(** What start-up leaves when the resume path names a checkpoint. *)
Lemma startup_resumes a now f f' p ck lr0 lr1 :
  load_trained_model a = true ->
  trained_model_path a = Some p ->
  path_exists f (data_root a) = true ->
  prepare_directories a now f = inr f' ->
  f !! p = Some (CheckpointFile ck) ->
  (display_architecture a = true -> (2 <= length (input_size a))%nat) ->
  lr_range a !! 0%nat = Some lr0 ->
  lr_range a !! 1%nat = Some lr1 ->
  exists evs cfg,
    startup a now f =
      (evs,
       Ready cfg (ck_epoch ck)
         {| model_state := restore_model (ck_model ck) (init_net a (seed_generator 10085));
            training := true; grad := grad_none;
            optimizer := {| opt_lr := lr1; opt_momentum := momentum_0_9;
                            opt_buffers := sgd_init |};
            step := ck_step ck; validation_step := 0;
            mean_rr_loss := None; mean_accuracy_1 := None;
            mean_accuracy_2 := None; mean_accuracy_3 := None;
            torch_rng := seed_generator 10085; np_rng := seed_generator 10085;
            py_rng := seed_generator 10085; tq_n := 0; fs := f' |}).
Proof.
  intros Hload Hpath Hdata Hdirs Hck Hsize Hlr0 Hlr1.
  apply (prepare_directories_lookup _ _ _ _ _ _ Hdirs) in Hck.
  destruct (summary_shown a Hsize) as (shown & Hshown & _).
  unfold startup. cbn zeta.
  rewrite Hload, Hpath, Hdata. cbn [negb]. rewrite Hdirs, Hshown.
  rewrite (index_lookup _ _ _ Hlr1), (index_lookup _ _ _ Hlr0).
  rewrite (path_exists_lookup _ _ _ Hck), Hck.
  eexists. eexists. reflexivity.
Qed.

(** C3, as the code has it: on resume the epoch and the global step take
    the values recorded in the checkpoint, and every parameter of the
    model whose name the checkpoint also has takes the checkpoint's
    value; a parameter the checkpoint lacks keeps its initial value and a
    checkpoint entry the model lacks is ignored.  The validation step
    starts at 0 and the optimizer is the freshly built one: the
    optimizer state recorded in the checkpoint is not read. *)
Theorem resume_restores a now f f' p ck lr0 lr1 :
  load_trained_model a = true ->
  trained_model_path a = Some p ->
  path_exists f (data_root a) = true ->
  prepare_directories a now f = inr f' ->
  f !! p = Some (CheckpointFile ck) ->
  (display_architecture a = true -> (2 <= length (input_size a))%nat) ->
  lr_range a !! 0%nat = Some lr0 ->
  lr_range a !! 1%nat = Some lr1 ->
  exists evs cfg s,
    startup a now f = (evs, Ready cfg (ck_epoch ck) s)
    /\ step s = ck_step ck
    /\ (forall k,
          model_state s !! k =
            match init_net a (seed_generator 10085) !! k with
            | Some own => Some (default own (ck_model ck !! k))
            | None => None
            end)
    /\ validation_step s = 0
    /\ optimizer s =
         {| opt_lr := lr1; opt_momentum := momentum_0_9; opt_buffers := sgd_init |}.
Proof.
  intros Hload Hpath Hdata Hdirs Hck Hsize Hlr0 Hlr1.
  destruct (startup_resumes a now f f' p ck lr0 lr1 Hload Hpath Hdata Hdirs Hck Hsize Hlr0 Hlr1)
    as (evs & cfg & Hstart).
  eexists. eexists. eexists. split; [ exact Hstart | ].
  cbn [step model_state validation_step optimizer].
  split; [ reflexivity | ]. split; [ | split; reflexivity ].
  intros k. apply restore_model_lookup.
Qed.

(** C7, as the code has it: each of the three configuration errors ends
    the process with an exception before any epoch starts.  A resume
    without a path and a missing data root are found first and leave the
    file system as it was.  A resume path that does not exist is found
    only when the checkpoint is to be loaded: by then the log directory,
    the run directory of the writer and the precompute directory have
    been created, and they stay. *)
Theorem configuration_errors a now f :
  (load_trained_model a = true ->
   trained_model_path a = None ->
   main a now f = ([], Some IOError, f))
  /\ ((load_trained_model a = true -> trained_model_path a <> None) ->
      path_exists f (data_root a) = false ->
      main a now f =
        ([EvPrint "specified training data root does not exist"], Some IOError, f))
  /\ (forall p f',
        load_trained_model a = true ->
        trained_model_path a = Some p ->
        path_exists f (data_root a) = true ->
        prepare_directories a now f = inr f' ->
        path_exists f' p = false ->
        (display_architecture a = true -> (2 <= length (input_size a))%nat) ->
        (2 <= length (lr_range a))%nat ->
        exists evs,
          main a now f = (evs, Some OSError, f')
          /\ existsb is_training_work evs = false
          /\ last evs = Some (EvPrint "No trained model detected")).
Proof.
  split; [ | split ].
  - intros Hload Hpath. unfold main, startup. cbn zeta.
    rewrite Hload, Hpath. reflexivity.
  - intros Hpath Hdata. unfold main, startup. cbn zeta.
    destruct (load_trained_model a).
    + destruct (trained_model_path a); [ | exfalso; exact (Hpath eq_refl eq_refl) ].
      rewrite Hdata. reflexivity.
    + rewrite Hdata. reflexivity.
  - intros p f' Hload Hpath Hdata Hdirs Hmissing Hsize Hlr.
    destruct (summary_shown a Hsize) as (shown & Hshown & Hwork).
    destruct (lr_range a) as [|lr0 [|lr1 lrs]] eqn:Hrange; cbn [length] in Hlr; try lia.
    unfold main, startup. cbn zeta.
    rewrite Hload, Hpath, Hdata. cbn [negb]. rewrite Hdirs, Hshown, Hrange.
    cbn [index lookup list_lookup]. rewrite Hmissing.
    eexists. split; [ reflexivity | ]. split.
    + rewrite !existsb_app, Hwork. reflexivity.
    + apply last_snoc.
Qed.

End Startup.

(** ** Counters, logs and files across a training loop *)

Section TrainingAccounts.

Context `{C : Collaborators}.

Implicit Types (cfg : config) (s : state) (b : batch_t).

Lemma logged_steps_app (tag : string) (evs1 evs2 : list event) :
  logged_steps tag (evs1 ++ evs2) = logged_steps tag evs1 ++ logged_steps tag evs2.
Proof. unfold logged_steps. apply omap_app. Qed.

(** What one training iteration does to the counters and the files,
    whichever way it ends. *)
Lemma train_iteration_accounts cfg cur_epoch batch b s :
  let run := train_iteration cfg cur_epoch batch b s in
  let s' := result_state (snd run) in
  fs s' = fs s
  /\ validation_step s' = validation_step s
  /\ accuracies s' = accuracies s
  /\ step s <= step s'
  /\ logged_steps "Train" (fst run) = seqZ (step s + 1) (step s' - step s)
  /\ Z.of_nat (length (List.filter is_optimizer_step (fst run)))
     = step s' - step s + raised (snd run).
Proof.
  cbn zeta.
  iteration_cases cfg cur_epoch batch b s; cbn [fst snd result_state raised];
    (split; [ reflexivity | ]); (split; [ reflexivity | ]); (split; [ reflexivity | ]);
    cbn [step skipped stepped scheduled set_tq_n set_grad set_model set_steps
              set_mean_rr_loss optimizer_step];
    rewrite ?Z.sub_diag; replace (step s + 1 - step s) with 1 by lia;
    (split; [ lia | ]); split; reflexivity.
Qed.

Lemma train_loop_accounts cfg cur_epoch bs :
  forall batch s,
    let run := train_loop cfg cur_epoch batch bs s in
    let s' := result_state (snd run) in
    fs s' = fs s
    /\ validation_step s' = validation_step s
    /\ accuracies s' = accuracies s
    /\ step s <= step s'
    /\ logged_steps "Train" (fst run) = seqZ (step s + 1) (step s' - step s)
    /\ Z.of_nat (length (List.filter is_optimizer_step (fst run)))
       = step s' - step s + raised (snd run).
Proof.
  induction bs as [|b bs IH]; intros batch s; cbn zeta; cbn [train_loop].
  - cbn [fst snd result_state raised List.filter length logged_steps omap].
    rewrite Z.sub_diag. repeat split; reflexivity || lia.
  - pose proof (train_iteration_accounts cfg cur_epoch batch b s) as Hit.
    cbn zeta in Hit.
    destruct (train_iteration cfg cur_epoch batch b s) as [evs [s1|x s1]];
      cbn [fst snd result_state raised] in *; [ | exact Hit ].
    destruct Hit as (Hfs & Hval & Hacc & Hle & Hlog & Hcount).
    specialize (IH (batch + 1) s1). cbn zeta in IH.
    destruct IH as (Hfs' & Hval' & Hacc' & Hle' & Hlog' & Hcount').
    split; [ congruence | ]. split; [ congruence | ]. split; [ congruence | ].
    split; [ lia | ]. split.
    + rewrite logged_steps_app, Hlog, Hlog'.
      replace (step (result_state (snd (train_loop cfg cur_epoch (batch + 1) bs s1))) - step s)
        with ((step s1 - step s) +
              (step (result_state (snd (train_loop cfg cur_epoch (batch + 1) bs s1))) - step s1))
        by lia.
      rewrite seqZ_app by lia.
      replace (step s + 1 + (step s1 - step s)) with (step s1 + 1) by lia. reflexivity.
    + rewrite List.filter_app, length_app, Nat2Z.inj_add, Hcount, Hcount'. lia.
Qed.

(** X1: in a training loop, whichever way it ends, the loss scalars are
    logged under consecutive global steps: the first under the step the
    loop started with plus one, the last under the step it ends with.
    Batches that are skipped for a non-finite loss neither log nor
    leave a gap. *)
Theorem train_log_steps_consecutive cfg cur_epoch batch bs s :
  let run := train_loop cfg cur_epoch batch bs s in
  logged_steps "Train" (fst run)
  = seqZ (step s + 1) (step (result_state (snd run)) - step s).
Proof.
  cbn zeta.
  destruct (train_loop_accounts cfg cur_epoch bs batch s) as (_ & _ & _ & _ & Hlog & _).
  exact Hlog.
Qed.

(** X2: the global step counts optimizer steps.  When a training loop
    ends normally the step has advanced by exactly the number of
    optimizer steps taken; when it ends in an exception the optimizer
    has taken one step more than the counter shows, because the
    iteration that raises has updated the parameters already. *)
Theorem step_counts_optimizer_steps cfg cur_epoch batch bs s :
  let run := train_loop cfg cur_epoch batch bs s in
  let taken := Z.of_nat (length (List.filter is_optimizer_step (fst run))) in
  match snd run with
  | Done s' => step s' = step s + taken
  | Raised _ s' => step s' = step s + taken - 1
  end.
Proof.
  cbn zeta.
  destruct (train_loop_accounts cfg cur_epoch bs batch s) as (_ & _ & _ & _ & _ & Hcount).
  cbn zeta in Hcount.
  destruct (snd (train_loop cfg cur_epoch batch bs s)); cbn [result_state raised] in Hcount; lia.
Qed.

(** X3: a training loop over batches whose losses are all NaN or
    infinite ends normally and changes nothing that is learned or
    counted: the parameters, the momentum buffers, the global step, the
    running mean and the files are as before, no optimizer step is
    taken and nothing is logged; the progress bar has moved by
    [batch_size] per batch. *)
Theorem all_nonfinite_loop_is_harmless cfg cur_epoch bs :
  forall batch s,
    Forall (fun b => nonfinite (item (rr_loss (cfg_args cfg) (model_state s) b)) = true) bs ->
    exists evs s',
      train_loop cfg cur_epoch batch bs s = (evs, Done s')
      /\ model_state s' = model_state s
      /\ opt_buffers (optimizer s') = opt_buffers (optimizer s)
      /\ opt_momentum (optimizer s') = opt_momentum (optimizer s)
      /\ step s' = step s
      /\ mean_rr_loss s' = mean_rr_loss s
      /\ fs s' = fs s
      /\ tq_n s' = tq_n s + batch_size (cfg_args cfg) * Z.of_nat (length bs)
      /\ List.filter is_optimizer_step evs = []
      /\ List.filter is_add_scalars evs = [].
Proof.
  induction bs as [|b bs IH]; intros batch s Hbs.
  - exists [], s. cbn [train_loop length Z.of_nat]. rewrite Z.mul_0_r, Z.add_0_r.
    repeat split; reflexivity.
  - apply Forall_cons in Hbs as [Hb Hbs].
    destruct (IH (batch + 1) (skipped cfg b s) Hbs)
      as (evs & s' & Hloop & Hms & Hbuf & Hmom & Hstep & Hmean & Hfs & Htq & Hopt & Hlog).
    eexists. exists s'. cbn [train_loop].
    rewrite (train_iteration_nonfinite cfg cur_epoch batch b s Hb), Hloop. cbn [fst snd].
    split; [ reflexivity | ].
    repeat (split; [ assumption | ]).
    split; [ | split; assumption ].
    rewrite Htq. cbn [length tq_n skipped set_tq_n]. lia.
Qed.

(** X4: the running mean left by an earlier epoch has no influence on an
    epoch whose first batch has a finite loss: the loop gives the same
    events and the same end state whatever value the name was bound to
    when the epoch began. *)
Theorem stale_mean_is_overwritten cfg cur_epoch b bs s (m : float) :
  nonfinite (item (rr_loss (cfg_args cfg) (model_state s) b)) = false ->
  train_loop cfg cur_epoch 0 (b :: bs) (set_mean_rr_loss m s)
  = train_loop cfg cur_epoch 0 (b :: bs) s.
Proof.
  intros Hfin. cbn [train_loop].
  assert (Hit : train_iteration cfg cur_epoch 0 b (set_mean_rr_loss m s)
                = train_iteration cfg cur_epoch 0 b s).
  { rewrite (train_iteration_finite cfg cur_epoch 0 b s Hfin).
    rewrite (train_iteration_finite cfg cur_epoch 0 b (set_mean_rr_loss m s) Hfin).
    cbn zeta. cbn [Z.eqb].
    destruct (display_interval (cfg_args cfg) =? 0); reflexivity. }
  rewrite Hit. reflexivity.
Qed.

(** X5: with [display_interval] 0 a training iteration with a finite
    loss raises [ZeroDivisionError] at the display test, whenever the
    running-mean update before it goes through: by then the optimizer
    has stepped and the running mean is updated, but the global step has
    not moved, nothing is displayed and nothing is logged.  An iteration
    with a non-finite loss does not reach the test and ends normally. *)
Theorem zero_display_interval cfg cur_epoch batch b s :
  display_interval (cfg_args cfg) = 0 ->
  (batch = 0 \/ is_Some (mean_rr_loss s)) ->
  let loss := rr_loss (cfg_args cfg) (model_state s) b in
  let run := train_iteration cfg cur_epoch batch b s in
  if nonfinite (item loss)
  then exists s', snd run = Done s' /\ step s' = step s
  else exists s',
      snd run = Raised ZeroDivisionError s'
      /\ model_state s' = model_state (stepped cfg b s)
      /\ is_Some (mean_rr_loss s')
      /\ step s' = step s
      /\ last (fst run) = Some EvOptimizerStep.
Proof.
  cbn zeta. intros Hdi Hmean.
  destruct (nonfinite (item (rr_loss (cfg_args cfg) (model_state s) b))) eqn:Hfin.
  - rewrite (train_iteration_nonfinite cfg cur_epoch batch b s Hfin).
    eexists. split; reflexivity.
  - rewrite (train_iteration_finite cfg cur_epoch batch b s Hfin). cbn zeta.
    rewrite Hdi. cbn [Z.eqb].
    destruct Hmean as [-> | [m Hm]].
    + cbn [Z.eqb fst snd]. eexists. split; [ reflexivity | ].
      split; [ reflexivity | ]. split; [ eexists; reflexivity | ].
      split; [ reflexivity | ]. unfold computed_events. reflexivity.
    + rewrite Hm. destruct (batch =? 0); cbn [fst snd];
        (eexists; split; [ reflexivity | ];
         split; [ reflexivity | ]; split; [ eexists; reflexivity | ];
         split; [ reflexivity | ]; unfold computed_events; reflexivity).
Qed.

End TrainingAccounts.

(** ** Counters, logs and files across a validation pass and an epoch *)

Section EpochAccounts.

Context `{C : Collaborators}.

Implicit Types (cfg : config) (s : state) (b : batch_t).

Lemma same_training_state_refl s : same_training_state s s.
Proof. repeat split. Qed.

Lemma validation_iteration_accounts cfg cur_epoch batch b s :
  let run := validation_iteration cfg cur_epoch batch b s in
  let s' := result_state (snd run) in
  same_training_state s s'
  /\ validation_step s' = validation_step s + 1 - raised (snd run)
  /\ logged_steps "Validation" (fst run)
     = seqZ (validation_step s + 1) (validation_step s' - validation_step s).
Proof.
  cbn zeta. unfold validation_iteration. cbn zeta.
  destruct (display_interval (cfg_args cfg) =? 0).
  { cbn [fst snd result_state raised]. rewrite Z.sub_diag.
    split; [ apply same_training_state_refl | ]. split; [ lia | reflexivity ]. }
  destruct (batch `mod` display_interval (cfg_args cfg) =? 0);
    (destruct (batch =? 0);
     [ | destruct (mean_accuracy_1 s); cbn [lookup_name];
         [ destruct (mean_accuracy_2 s);
           [ destruct (mean_accuracy_3 s) | ] | ] ]);
    cbn [fst snd result_state raised validation_step set_tq_n set_steps set_mean_accuracy
              lookup_name];
    rewrite ?Z.sub_diag;
    replace (validation_step s + 1 - validation_step s) with 1 by lia;
    (split; [ repeat split | ]); (split; [ lia | reflexivity ]).
Qed.

Lemma validation_loop_accounts cfg cur_epoch bs :
  forall batch s,
    let run := validation_loop cfg cur_epoch batch bs s in
    let s' := result_state (snd run) in
    same_training_state s s'
    /\ validation_step s <= validation_step s'
    /\ (raised (snd run) = 0 -> validation_step s' = validation_step s + Z.of_nat (length bs))
    /\ logged_steps "Validation" (fst run)
       = seqZ (validation_step s + 1) (validation_step s' - validation_step s).
Proof.
  induction bs as [|b bs IH]; intros batch s; cbn zeta; cbn [validation_loop].
  - cbn [fst snd result_state raised length Z.of_nat]. rewrite Z.sub_diag.
    split; [ apply same_training_state_refl | ].
    split; [ lia | ]. split; [ intros _; lia | reflexivity ].
  - pose proof (validation_iteration_accounts cfg cur_epoch batch b s) as Hit.
    cbn zeta in Hit.
    destruct (validation_iteration cfg cur_epoch batch b s) as [evs [s1|x s1]];
      cbn [fst snd result_state raised] in *.
    + destruct Hit as (Hsame & Hstep & Hlog).
      specialize (IH (batch + 1) s1). cbn zeta in IH.
      destruct IH as (Hsame' & Hle' & Hdone' & Hlog').
      split; [ exact (same_training_state_trans _ _ _ Hsame Hsame') | ].
      split; [ lia | ]. split.
      * intros Hr. rewrite (Hdone' Hr). cbn [length]. lia.
      * rewrite logged_steps_app, Hlog, Hlog'.
        replace (validation_step
                   (result_state (snd (validation_loop cfg cur_epoch (batch + 1) bs s1)))
                 - validation_step s)
          with ((validation_step s1 - validation_step s) +
                (validation_step
                   (result_state (snd (validation_loop cfg cur_epoch (batch + 1) bs s1)))
                 - validation_step s1))
          by lia.
        rewrite seqZ_app by lia.
        replace (validation_step s + 1 + (validation_step s1 - validation_step s))
          with (validation_step s1 + 1) by lia.
        reflexivity.
    + destruct Hit as (Hsame & Hstep & Hlog).
      split; [ exact Hsame | ]. split; [ lia | ]. split; [ discriminate | exact Hlog ].
Qed.

(** X6: a validation pass never touches what training learns, however
    it ends: the model parameters, the optimizer, the gradients, the
    global step and the running mean of the loss are the same before
    and after, and the pass makes no call on gradients or parameters. *)
Theorem validation_leaves_training_state cfg cur_epoch s :
  let run := validation_phase cfg cur_epoch s in
  let s' := result_state (snd run) in
  model_state s' = model_state s
  /\ optimizer s' = optimizer s
  /\ grad s' = grad s
  /\ step s' = step s
  /\ mean_rr_loss s' = mean_rr_loss s
  /\ List.filter is_update (fst run) = [].
Proof.
  cbn zeta. rewrite validation_phase_unfold. cbn zeta.
  destruct (validation_loop_accounts cfg cur_epoch (validation_batches cfg) 0
              (validation_start cfg s)) as (Hsame & _).
  pose proof (validation_loop_events cfg cur_epoch (validation_batches cfg) 0
                (validation_start cfg s)) as Hevs.
  assert (Hupd : List.filter is_update
                   (fst (validation_loop cfg cur_epoch 0 (validation_batches cfg)
                           (validation_start cfg s))) = []).
  { apply filter_none. eapply Forall_impl; [ exact Hevs | ].
    intros ev (_ & _ & Hev). exact Hev. }
  destruct (validation_loop cfg cur_epoch 0 (validation_batches cfg)
              (validation_start cfg s)) as [evs [s'|x s']];
    cbn [fst snd result_state] in *;
    destruct Hsame as (Hms & Hopt & Hgrad & Hstep & Hmean & _).
  - destruct (mean_accuracy_1 s'); [ destruct (mean_accuracy_2 s');
      [ destruct (mean_accuracy_3 s') | ] | ];
      cbn [fst snd result_state model_state optimizer grad step mean_rr_loss set_fs];
      repeat (split; [ assumption | ]);
      cbn [seed_events app List.filter is_update];
      rewrite List.filter_app, Hupd; reflexivity.
  - repeat (split; [ assumption | ]).
    cbn [seed_events app List.filter is_update]. exact Hupd.
Qed.

(** X7: the validation step is a counter over the whole run.  A
    validation pass that ends normally advances it by the number of
    validation batches, and the accuracies of the pass are logged under
    the consecutive steps in between; no pass sets it back. *)
Theorem validation_steps_accumulate cfg cur_epoch s s' :
  snd (validation_phase cfg cur_epoch s) = Done s' ->
  validation_step s' = validation_step s + Z.of_nat (length (validation_batches cfg))
  /\ logged_steps "Validation" (fst (validation_phase cfg cur_epoch s))
     = seqZ (validation_step s + 1) (Z.of_nat (length (validation_batches cfg))).
Proof.
  rewrite validation_phase_unfold. cbn zeta.
  destruct (validation_loop_accounts cfg cur_epoch (validation_batches cfg) 0
              (validation_start cfg s)) as (_ & _ & Hdone & Hlog).
  destruct (validation_loop cfg cur_epoch 0 (validation_batches cfg)
              (validation_start cfg s)) as [evs [s1|x s1]];
    cbn [fst snd result_state raised] in *; [ | discriminate ].
  specialize (Hdone eq_refl).
  change (validation_step (validation_start cfg s)) with (validation_step s) in Hdone, Hlog.
  destruct (mean_accuracy_1 s1); [ destruct (mean_accuracy_2 s1);
    [ destruct (mean_accuracy_3 s1) | ] | ]; cbn [fst snd]; try discriminate.
  intros Heq. injection Heq as <-. cbn [validation_step set_fs].
  split; [ exact Hdone | ].
  rewrite !logged_steps_app, Hlog.
  cbn [seed_events app logged_steps omap]. rewrite app_nil_r, Hdone.
  replace (validation_step s + Z.of_nat (length (validation_batches cfg)) - validation_step s)
    with (Z.of_nat (length (validation_batches cfg))) by lia.
  reflexivity.
Qed.

(** X8: a validation loader that yields no batch.  If no earlier pass
    has bound the mean accuracies, formatting the checkpoint name raises
    [NameError] and no checkpoint is written; if an earlier pass has,
    the epoch saves a checkpoint that carries the means of that earlier
    pass. *)
Theorem empty_validation_loader cfg cur_epoch s :
  validation_batches cfg = [] ->
  let run := validation_phase cfg cur_epoch s in
  (mean_accuracy_1 s = None ->
   exists s',
     snd run = Raised (NameError "mean_accuracy_1") s'
     /\ fs s' = fs s
     /\ List.filter is_save_model (fst run) = [])
  /\ (forall m1 m2 m3,
        accuracies s = Some (m1, m2, m3) ->
        exists s' ck model_path,
          snd run = Done s'
          /\ List.filter is_save_model (fst run) = [EvSaveModel ck model_path]
          /\ ck_validation ck = m1
          /\ model_path = path_join (cfg_log_root cfg) (checkpoint_name cur_epoch m1 m2 m3)).
Proof.
  intros Hempty. cbn zeta. rewrite validation_phase_unfold. cbn zeta.
  rewrite Hempty. cbn [validation_loop fst snd]. split.
  - intros Hnone.
    change (mean_accuracy_1 (validation_start cfg s)) with (mean_accuracy_1 s).
    rewrite Hnone. eexists. repeat split.
  - intros m1 m2 m3 Hacc. unfold accuracies in Hacc.
    change (mean_accuracy_1 (validation_start cfg s)) with (mean_accuracy_1 s).
    change (mean_accuracy_2 (validation_start cfg s)) with (mean_accuracy_2 s).
    change (mean_accuracy_3 (validation_start cfg s)) with (mean_accuracy_3 s).
    destruct (mean_accuracy_1 s); [ | discriminate ].
    destruct (mean_accuracy_2 s); [ | discriminate ].
    destruct (mean_accuracy_3 s); [ | discriminate ].
    injection Hacc as -> -> ->.
    eexists. eexists. eexists. repeat split.
Qed.




Lemma range_last (lo hi : Z) : lo < hi -> last (range lo hi) = Some (hi - 1).
Proof.
  intros Hlt. unfold range.
  replace (hi - lo) with ((hi - lo - 1) + 1) by lia.
  rewrite seqZ_app by lia.
  replace (lo + (hi - lo - 1)) with (hi - 1) by lia.
  change (seqZ (hi - 1) 1) with [0 + (hi - 1)]. rewrite Z.add_0_l. apply last_snoc.
Qed.

(** X11: the loop over epochs runs the indices from the start epoch up
    to [num_epoch] itself.  When start-up hands over an epoch beyond
    [num_epoch], as it does on resuming from the checkpoint of the last
    epoch, no epoch runs and the script ends normally with the files as
    start-up left them; otherwise the first epoch that runs is the start
    epoch and the last in line is [num_epoch]. *)
Theorem epoch_range a now f evs cfg epoch s :
  startup a now f = (evs, Ready cfg epoch s) ->
  (num_epoch a < epoch -> main a now f = (evs, None, fs s))
  /\ (epoch <= num_epoch a ->
      let ran := run_epochs cfg (epoch :: range (epoch + 1) (num_epoch a + 1)) s in
      main a now f = (evs ++ fst ran, exception_of (snd ran), fs (result_state (snd ran)))
      /\ last (range epoch (num_epoch a + 1)) = Some (num_epoch a)
      /\ length (range epoch (num_epoch a + 1)) = Z.to_nat (num_epoch a - epoch + 1)).
Proof.
  intros Hstart. unfold main. rewrite Hstart. split.
  - intros Hlt. unfold range. rewrite seqZ_nil by lia.
    cbn [run_epochs fst snd]. rewrite app_nil_r. reflexivity.
  - intros Hle. cbn zeta.
    assert (Hrange : range epoch (num_epoch a + 1)
                     = epoch :: range (epoch + 1) (num_epoch a + 1)).
    { unfold range. rewrite seqZ_cons by lia. f_equal. f_equal; lia. }
    split; [ | split ].
    + rewrite Hrange.
      destruct (snd (run_epochs cfg (epoch :: range (epoch + 1) (num_epoch a + 1)) s));
        reflexivity.
    + rewrite range_last by lia. f_equal. lia.
    + unfold range. rewrite length_seqZ. f_equal. lia.
Qed.

End EpochAccounts.

(** ** Start-up: restore, directories and list arguments *)

Section StartupAccounts.

Context `{C : Collaborators}.

Implicit Types (a : args) (f : gmap path file) (cfg : config) (s : state).

Lemma restore_model_same_keys (saved current : gmap string tensor) :
  dom saved = dom current -> restore_model saved current = saved.
Proof.
  intros Hdom. apply map_eq. intros k. rewrite restore_model_lookup.
  destruct (current !! k) as [own|] eqn:Hown; destruct (saved !! k) as [v|] eqn:Hsaved;
    try reflexivity.
  - exfalso. assert (Hk : k ∈ dom saved) by (rewrite Hdom; apply elem_of_dom; eauto).
    apply elem_of_dom in Hk as [v Hv]. congruence.
  - exfalso. assert (Hk : k ∈ dom current) by (rewrite <- Hdom; apply elem_of_dom; eauto).
    apply elem_of_dom in Hk as [v' Hv]. congruence.
Qed.

(** X12: the name-matching restore always yields a [state_dict] with
    exactly the parameter names of the model, so the strict
    [load_state_dict] that follows sees no missing and no unexpected
    key.  In particular a checkpoint that shares no name with the model
    is accepted and restores nothing. *)
Theorem restore_keeps_model_keys (saved current : gmap string tensor) :
  dom (restore_model saved current) = dom current
  /\ (dom saved ## dom current -> restore_model saved current = current).
Proof.
  split.
  - apply set_eq. intros k. rewrite !elem_of_dom, restore_model_lookup.
    destruct (current !! k); [ | reflexivity ].
    split; intros _; eexists; reflexivity.
  - intros Hdisj. apply map_eq. intros k. rewrite restore_model_lookup.
    destruct (current !! k) as [own|] eqn:Hown; [ | reflexivity ].
    destruct (saved !! k) as [v|] eqn:Hsaved; [ | reflexivity ].
    exfalso. apply (Hdisj k); apply elem_of_dom; eauto.
Qed.

(** X13: save, then resume.  When a validation pass has ended normally
    and a later run resumes from the checkpoint it wrote, with a model
    of the same parameter names, that run starts at the next epoch with
    the global step and the model parameters the pass ended with. *)
Theorem checkpoint_round_trip cfg cur_epoch s evs s' m1 m2 m3 a now f' lr0 lr1 :
  validation_phase cfg cur_epoch s = (evs, Done s') ->
  accuracies s' = Some (m1, m2, m3) ->
  load_trained_model a = true ->
  trained_model_path a
    = Some (path_join (cfg_log_root cfg) (checkpoint_name cur_epoch m1 m2 m3)) ->
  path_exists (fs s') (data_root a) = true ->
  prepare_directories a now (fs s') = inr f' ->
  (display_architecture a = true -> (2 <= length (input_size a))%nat) ->
  lr_range a !! 0%nat = Some lr0 ->
  lr_range a !! 1%nat = Some lr1 ->
  dom (init_net a (seed_generator 10085)) = dom (model_state s) ->
  exists evs2 cfg2 s2,
    startup a now (fs s') = (evs2, Ready cfg2 (cur_epoch + 1) s2)
    /\ step s2 = step s
    /\ model_state s2 = model_state s.
Proof.
  intros Hphase Hacc Hload Hpath Hdata Hdirs Hsize Hlr0 Hlr1 Hdom.
  rewrite validation_phase_unfold in Hphase. cbn zeta in Hphase.
  destruct (validation_loop_accounts cfg cur_epoch (validation_batches cfg) 0
              (validation_start cfg s)) as (Hsame & _).
  destruct (validation_loop cfg cur_epoch 0 (validation_batches cfg)
              (validation_start cfg s)) as [evs1 [s1|x s1]];
    cbn [fst snd result_state] in *; [ | discriminate Hphase ].
  destruct Hsame as (Hms & _ & _ & Hstep & _ & _).
  change (model_state (validation_start cfg s)) with (model_state s) in Hms.
  change (step (validation_start cfg s)) with (step s) in Hstep.
  destruct (mean_accuracy_1 s1) as [n1|] eqn:H1; [ | destruct (mean_accuracy_2 s1);
    [ destruct (mean_accuracy_3 s1) | ]; discriminate Hphase ].
  destruct (mean_accuracy_2 s1) as [n2|] eqn:H2; [ | discriminate Hphase ].
  destruct (mean_accuracy_3 s1) as [n3|] eqn:H3; [ | discriminate Hphase ].
  injection Hphase as _ <-.
  unfold accuracies in Hacc. cbn [mean_accuracy_1 mean_accuracy_2 mean_accuracy_3 set_fs] in Hacc.
  rewrite H1, H2, H3 in Hacc. injection Hacc as -> -> ->.
  cbn [fs set_fs] in Hdata, Hdirs.
  assert (Hck : <[path_join (cfg_log_root cfg) (checkpoint_name cur_epoch m1 m2 m3)
                  := CheckpointFile (epoch_checkpoint cur_epoch s1 m1)]> (fs s1)
                !! path_join (cfg_log_root cfg) (checkpoint_name cur_epoch m1 m2 m3)
                = Some (CheckpointFile (epoch_checkpoint cur_epoch s1 m1)))
    by apply lookup_insert_eq.
  destruct (startup_resumes a now _ f' _ _ lr0 lr1 Hload Hpath Hdata Hdirs Hck Hsize Hlr0 Hlr1)
    as (evs2 & cfg2 & Hstart).
  cbn [fs set_fs]. eexists. eexists. eexists. split; [ exact Hstart | ].
  cbn [step model_state epoch_checkpoint ck_step ck_model].
  split; [ exact Hstep | ].
  rewrite restore_model_same_keys; [ exact Hms | ].
  rewrite Hms. symmetry. exact Hdom.
Qed.

(** One step of directory creation, and its two invariants: what
    exists stays, and the step's own path exists afterwards. *)
Lemma create_missing_exists f (dirs : list path) (q : path) :
  path_exists f q = true ->
  path_exists
    (foldl (fun f d => if path_exists f d then f else <[d := Directory]> f) f dirs) q = true.
Proof.
  revert f. induction dirs as [|d dirs IH]; intros f Hq; cbn [foldl]; [ exact Hq | ].
  apply IH. destruct (path_exists f d) eqn:Hd; [ exact Hq | ].
  destruct q as [|c q]; [ reflexivity | ].
  cbn [path_exists] in *. apply bool_decide_eq_true. apply bool_decide_eq_true in Hq.
  destruct Hq as [x Hx].
  destruct (decide (d = c :: q)) as [-> | Hne].
  - rewrite lookup_insert_eq. eexists; reflexivity.
  - rewrite lookup_insert_ne by exact Hne. rewrite Hx. eexists; reflexivity.
Qed.

Lemma create_missing_member f (dirs : list path) (q : path) :
  q ∈ dirs ->
  path_exists
    (foldl (fun f d => if path_exists f d then f else <[d := Directory]> f) f dirs) q = true.
Proof.
  revert f. induction dirs as [|d dirs IH]; intros f Hq.
  - apply elem_of_nil in Hq. contradiction.
  - apply elem_of_cons in Hq as [-> | Hq]; cbn [foldl]; [ | apply IH, Hq ].
    apply create_missing_exists.
    destruct (path_exists f d) eqn:Hd; [ exact Hd | ].
    destruct d as [|c d]; [ reflexivity | ].
    cbn [path_exists]. apply bool_decide_eq_true. rewrite lookup_insert_eq.
    eexists; reflexivity.
Qed.

Lemma ancestors_self (p : path) : p <> [] -> p ∈ ancestors p.
Proof.
  induction p as [|c p IH]; intros Hne; [ congruence | ].
  cbn [ancestors]. destruct p as [|c' p].
  - apply elem_of_cons. left. reflexivity.
  - apply elem_of_cons. right. apply list_elem_of_fmap. exists (c' :: p).
    split; [ reflexivity | apply IH; discriminate ].
Qed.

Lemma makedirs_exists f (p : path) : path_exists (makedirs f p) p = true.
Proof.
  destruct p as [|c p]; [ reflexivity | ].
  unfold makedirs. apply create_missing_member, ancestors_self. discriminate.
Qed.

Lemma makedirs_keeps f (p q : path) :
  path_exists f q = true -> path_exists (makedirs f p) q = true.
Proof. apply create_missing_exists. Qed.

(** X14: the directories of start-up.  When [prepare_directories]
    succeeds, the log root, the run directory under it and the
    precompute root exist, and every entry that was in the file system
    before is still there with its content. *)
Theorem directories_prepared a now f f' :
  prepare_directories a now f = inr f' ->
  path_exists f' (log_root a) = true
  /\ path_exists f' (path_join (log_root a) (run_name now)) = true
  /\ path_exists f' (precompute_root a) = true
  /\ (forall (q : path) (x : file), f !! q = Some x -> f' !! q = Some x).
Proof.
  intros Hprep.
  split; [ | split; [ | split ] ];
    [ | | | intros q x; apply (prepare_directories_lookup _ _ _ _ _ _ Hprep) ].
  all: unfold prepare_directories in Hprep.
  all: destruct (path_exists f (log_root a)) eqn:Hlog; cbn [negb] in Hprep.
  all: try (destruct (mkdir f (log_root a)) as [e|f1] eqn:Hmk; [ discriminate Hprep | ]).
  all: injection Hprep as <-.
  all: try (assert (Hlog1 : path_exists f1 (log_root a) = true);
            [ unfold mkdir in Hmk; rewrite Hlog in Hmk;
              destruct (path_exists f (removelast (log_root a))); [ | discriminate Hmk ];
              injection Hmk as <-;
              destruct (log_root a) as [|c l]; [ reflexivity | ];
              cbn [path_exists]; apply bool_decide_eq_true; rewrite lookup_insert_eq;
              eexists; reflexivity | ]).
  all: match goal with
       | |- path_exists (if ?c then _ else _) _ = true => destruct c eqn:Hpre
       end.
  all: first [ apply makedirs_exists
             | do 2 apply makedirs_keeps; assumption
             | apply makedirs_keeps; assumption
             | apply makedirs_keeps, makedirs_exists
             | apply negb_false_iff in Hpre; exact Hpre ].
Qed.


(** X16: list arguments that are too short.  [lr_range] is read at
    index 1 and at index 0 when the optimizer and the scheduler are
    built: with fewer than two values the script ends in [IndexError],
    after the directories have been created and before any epoch.  The
    same holds for [input_size] when the architecture summary is asked
    for. *)
Theorem short_list_arguments a now f f' :
  (load_trained_model a = true -> trained_model_path a <> None) ->
  path_exists f (data_root a) = true ->
  prepare_directories a now f = inr f' ->
  ((display_architecture a = true -> (2 <= length (input_size a))%nat) ->
   (length (lr_range a) < 2)%nat ->
   exists evs,
     main a now f = (evs, Some IndexError, f')
     /\ existsb is_training_work evs = false)
  /\ (display_architecture a = true ->
      (length (input_size a) < 2)%nat ->
      exists evs,
        main a now f = (evs, Some IndexError, f')
        /\ existsb is_training_work evs = false).
Proof.
  intros Hpath Hdata Hdirs.
  split.
  - intros Hsize Hlr.
    destruct (summary_shown a Hsize) as (shown & Hshown & Hwork).
    unfold main, startup. cbn zeta.
    destruct (load_trained_model a) eqn:Hload;
      [ destruct (trained_model_path a) eqn:Htp;
        [ | exfalso; exact (Hpath eq_refl eq_refl) ] | ];
      rewrite Hdata; cbn [negb]; rewrite Hdirs, Hshown;
      (destruct (lr_range a) as [|lr0 [|lr1 lrs]]; cbn [length] in Hlr; try lia);
      cbn [index lookup list_lookup];
      (eexists; split; [ reflexivity | ]);
      rewrite !existsb_app, Hwork; reflexivity.
  - intros Hshow Hsize.
    unfold main, startup. cbn zeta.
    destruct (load_trained_model a) eqn:Hload;
      [ destruct (trained_model_path a) eqn:Htp;
        [ | exfalso; exact (Hpath eq_refl eq_refl) ] | ];
      rewrite Hdata; cbn [negb]; rewrite Hdirs, Hshow;
      (destruct (input_size a) as [|h [|w rest]]; cbn [length] in Hsize; try lia);
      cbn [index lookup list_lookup];
      (eexists; split; reflexivity).
Qed.

End StartupAccounts.

(** ** The script on the small instance *)

Section Runs.

Import Toy.

(** Two floats that the comparison tells apart are different. *)
Lemma float_eqb_neq (x y : float) :
  PrimFloat.eqb x x = true -> PrimFloat.eqb x y = false -> x <> y.
Proof. intros Hxx Hxy Heq. rewrite <- Heq in Hxy. congruence. Qed.

(** C1, counterexample: a fresh run makes one clean iteration and then
    meets a NaN batch.  Before the NaN iteration the optimizer holds the
    learning rate 0.5, after it 0.75: the optimizer is not what it was. *)
Lemma nan_iteration_rewrites_learning_rate :
  let cfg := toy_cfg steady in
  let s := stepped_state in
  let s' := result_state (snd (train_iteration cfg 0 1 bad_batch s)) in
  nonfinite (item (rr_loss (cfg_args cfg) (model_state s) bad_batch)) = true
  /\ opt_lr (optimizer s) = 0.5%float
  /\ opt_lr (optimizer s') = 0.75%float
  /\ optimizer s' <> optimizer s.
Proof.
  cbn zeta. split; [ vm_compute; reflexivity | ].
  split; [ vm_compute; reflexivity | ].
  split; [ vm_compute; reflexivity | ].
  intros Heq. apply (f_equal opt_lr) in Heq. vm_compute in Heq.
  revert Heq. apply float_eqb_neq; vm_compute; reflexivity.
Qed.

(** C2, counterexample: from the same state a NaN batch leaves the step
    at 0 and the running mean unbound, where a clean batch moves the
    step to 1 and binds the mean. *)
Lemma nan_iteration_keeps_step :
  let cfg := toy_cfg steady in
  let s := toy_state steady in
  let skipped := result_state (snd (train_iteration cfg 0 0 bad_batch s)) in
  let updated := result_state (snd (train_iteration cfg 0 0 good_batch s)) in
  nonfinite (item (rr_loss (cfg_args cfg) (model_state s) bad_batch)) = true
  /\ nonfinite (item (rr_loss (cfg_args cfg) (model_state s) good_batch)) = false
  /\ step skipped = 0 /\ mean_rr_loss skipped = None
  /\ step updated = 1 /\ mean_rr_loss updated = Some 1%float.
Proof. cbn zeta. repeat split; vm_compute; reflexivity. Qed.

(** C3, counterexample: the checkpoint records an optimizer whose
    momentum buffer is 5; the resumed run starts from epoch 3 and step
    40 with the buffer of a new optimizer, 0, and validation step 0. *)
Lemma resume_drops_optimizer_state :
  (exists cfg, resumed = Ready cfg 3 resumed_state)
  /\ step resumed_state = 40
  /\ opt_buffers (ck_optimizer old_checkpoint) = 5
  /\ opt_buffers (optimizer resumed_state) = 0
  /\ optimizer resumed_state <> ck_optimizer old_checkpoint
  /\ validation_step resumed_state = 0.
Proof.
  split.
  { assert (Hepoch : match resumed with Ready _ epoch _ => epoch = 3 | Aborted _ _ => False end)
      by (vm_compute; reflexivity).
    unfold resumed_state. destruct resumed as [cfg epoch s|e f]; [ | contradiction ].
    exists cfg. rewrite Hepoch. reflexivity. }
  split; [ vm_compute; reflexivity | ].
  split; [ vm_compute; reflexivity | ].
  split; [ vm_compute; reflexivity | ].
  split; [ | vm_compute; reflexivity ].
  intros Heq. apply (f_equal opt_buffers) in Heq. vm_compute in Heq. discriminate Heq.
Qed.

(** C7, counterexample: a resume path that does not exist aborts the run
    with [OSError], and the log directory and the precompute directory,
    which were not there before, are there afterwards. *)
Lemma missing_resume_path_leaves_directories :
  let before := toy_fs steady in
  let out := main (resume_args ["missing.pt"]) toy_now before in
  snd (fst out) = Some OSError
  /\ before !! ["logs"] = None
  /\ snd out !! ["logs"] = Some Directory
  /\ before !! ["cache"; "pre"] = None
  /\ snd out !! ["cache"; "pre"] = Some Directory.
Proof. cbn zeta. repeat split; vm_compute; reflexivity. Qed.

(** C10, counterexample: epoch 0 trains on one clean batch; epoch 1
    meets a NaN batch first and a clean batch second (the loss of this
    instance does not depend on the weights).  The whole run ends
    without an exception. *)
Lemma later_epoch_reads_old_mean :
  let cfg := toy_cfg late_nan in
  training_batches cfg 0 = [good_batch]
  /\ training_batches cfg 1 = [bad_batch; good_batch]
  /\ nonfinite (item (rr_loss toy_args (model_state (toy_state late_nan)) bad_batch)) = true
  /\ nonfinite (item (rr_loss toy_args (model_state (toy_state late_nan)) good_batch)) = false
  /\ snd (fst (main toy_args toy_now (toy_fs late_nan))) = None.
Proof. cbn zeta. repeat split; vm_compute; reflexivity. Qed.

(** *** The theorems at concrete inputs *)

Lemma done_result_state `{C : Collaborators} (r : result) :
  match r with Done _ => True | Raised _ _ => False end -> r = Done (result_state r).
Proof. destruct r; [ reflexivity | contradiction ]. Qed.

Lemma inr_projection {A B : Type} (x : A + B) (d : B) :
  match x with inr _ => True | inl _ => False end ->
  x = inr (match x with inr y => y | inl _ => d end).
Proof. destruct x; [ contradiction | reflexivity ]. Qed.

Lemma finite_loss_update_sequence_witness :
  let cfg := toy_cfg steady in
  let s := toy_state steady in
  let loss := rr_loss (cfg_args cfg) (model_state s) good_batch in
  nonfinite (item loss) = false
  /\ List.filter is_update (fst (train_iteration cfg 0 0 good_batch s)) =
       [EvZeroGrad; EvBackward loss; EvClipGradNorm 10; EvOptimizerStep].
Proof.
  cbn zeta.
  assert (Hfin : nonfinite (item (rr_loss (cfg_args (toy_cfg steady))
                                    (model_state (toy_state steady)) good_batch)) = false)
    by (vm_compute; reflexivity).
  split; [ exact Hfin | ].
  exact (proj1 (finite_loss_update_sequence (toy_cfg steady) 0 0 good_batch
                  (toy_state steady) Hfin)).
Defined.

Lemma nan_guard_skips_update_witness :
  let cfg := toy_cfg steady in
  let s := stepped_state in
  nonfinite (item (rr_loss (cfg_args cfg) (model_state s) bad_batch)) = true
  /\ exists evs s',
       train_iteration cfg 0 1 bad_batch s = (evs, Done s')
       /\ model_state s' = model_state s
       /\ opt_buffers (optimizer s') = opt_buffers (optimizer s).
Proof.
  cbn zeta.
  assert (Hnan : nonfinite (item (rr_loss (cfg_args (toy_cfg steady))
                                    (model_state stepped_state) bad_batch)) = true)
    by (vm_compute; reflexivity).
  split; [ exact Hnan | ].
  destruct (nan_guard_skips_update (toy_cfg steady) 0 1 bad_batch [] stepped_state Hnan)
    as (evs & s' & Hrun & _ & Hms & Hbuf & _).
  exists evs, s'. split; [ exact Hrun | ]. split; [ exact Hms | exact Hbuf ].
Defined.

Lemma nan_guard_progress_witness :
  let cfg := toy_cfg steady in
  let s := toy_state steady in
  nonfinite (item (rr_loss (cfg_args cfg) (model_state s) bad_batch)) = true
  /\ exists evs s',
       train_iteration cfg 0 0 bad_batch s = (evs, Done s')
       /\ tq_n s' = tq_n s + 8
       /\ step s' = step s.
Proof.
  cbn zeta.
  assert (Hnan : nonfinite (item (rr_loss (cfg_args (toy_cfg steady))
                                    (model_state (toy_state steady)) bad_batch)) = true)
    by (vm_compute; reflexivity).
  split; [ exact Hnan | ].
  destruct (nan_guard_progress (toy_cfg steady) 0 0 bad_batch (toy_state steady) Hnan)
    as (evs & s' & Hrun & _ & Htq & Hstep & _).
  exists evs, s'. split; [ exact Hrun | ]. split; [ exact Htq | exact Hstep ].
Defined.

Lemma first_finite_batch_after_nan_witness :
  let cfg := toy_cfg early_nan in
  let s := toy_state early_nan in
  [bad_batch] <> []
  /\ Forall (fun b => nonfinite (item (rr_loss (cfg_args cfg) (model_state s) b)) = true)
       [bad_batch]
  /\ nonfinite (item (rr_loss (cfg_args cfg) (model_state s) good_batch)) = false
  /\ exists s',
       snd (train_loop cfg 0 0 ([bad_batch] ++ good_batch :: []) s)
       = Raised (NameError "mean_rr_loss") s'.
Proof.
  cbn zeta.
  assert (Hne : [bad_batch] <> []) by discriminate.
  assert (Hnans : Forall (fun b => nonfinite (item (rr_loss (cfg_args (toy_cfg early_nan))
                                             (model_state (toy_state early_nan)) b)) = true)
                    [bad_batch])
    by (constructor; [ vm_compute; reflexivity | constructor ]).
  assert (Hfin : nonfinite (item (rr_loss (cfg_args (toy_cfg early_nan))
                                    (model_state (toy_state early_nan)) good_batch)) = false)
    by (vm_compute; reflexivity).
  split; [ exact Hne | ]. split; [ exact Hnans | ]. split; [ exact Hfin | ].
  destruct (proj1 (first_finite_batch_after_nan (toy_cfg early_nan) 0 [bad_batch] good_batch []
                     (toy_state early_nan) Hne Hnans Hfin) eq_refl)
    as (s' & Hraised & _).
  exists s'. exact Hraised.
Defined.

Lemma validation_gating_witness :
  let cfg := toy_cfg steady in
  let s := toy_state steady in
  let trained := result_state (snd (train_phase cfg 0 s)) in
  validation_interval (cfg_args cfg) <> 0
  /\ snd (train_phase cfg 0 s) = Done trained
  /\ (existsb is_validation (fst (run_epoch cfg 0 s)) = true
       <-> 0 `mod` validation_interval (cfg_args cfg) = 0).
Proof.
  cbn zeta.
  assert (Hvi : validation_interval (cfg_args (toy_cfg steady)) <> 0) by discriminate.
  assert (Htrain : snd (train_phase (toy_cfg steady) 0 (toy_state steady))
                   = Done (result_state (snd (train_phase (toy_cfg steady) 0
                                                (toy_state steady)))))
    by (apply done_result_state; vm_compute; exact I).
  split; [ exact Hvi | ]. split; [ exact Htrain | ].
  exact (proj1 (validation_gating (toy_cfg steady) 0 (toy_state steady) _ Hvi Htrain)).
Defined.

Lemma checkpoint_at_validation_end_witness :
  let cfg := toy_cfg steady in
  let s := toy_state steady in
  let trained := result_state (snd (train_phase cfg 0 s)) in
  validation_interval (cfg_args cfg) <> 0
  /\ 0 `mod` validation_interval (cfg_args cfg) = 0
  /\ display_interval (cfg_args cfg) <> 0
  /\ validation_batches cfg <> []
  /\ snd (train_phase cfg 0 s) = Done trained
  /\ exists s' ck model_path,
       snd (run_epoch cfg 0 s) = Done s'
       /\ List.filter is_save_model (fst (run_epoch cfg 0 s)) = [EvSaveModel ck model_path]
       /\ ck_epoch ck = 1
       /\ fs s' !! model_path = Some (CheckpointFile ck).
Proof.
  cbn zeta.
  assert (Hvi : validation_interval (cfg_args (toy_cfg steady)) <> 0) by discriminate.
  assert (Hmod : 0 `mod` validation_interval (cfg_args (toy_cfg steady)) = 0) by reflexivity.
  assert (Hdi : display_interval (cfg_args (toy_cfg steady)) <> 0) by discriminate.
  assert (Hbs : validation_batches (toy_cfg steady) <> []) by discriminate.
  assert (Htrain : snd (train_phase (toy_cfg steady) 0 (toy_state steady))
                   = Done (result_state (snd (train_phase (toy_cfg steady) 0
                                                (toy_state steady)))))
    by (apply done_result_state; vm_compute; exact I).
  repeat (split; [ assumption | ]).
  destruct (checkpoint_at_validation_end (toy_cfg steady) 0 (toy_state steady) _
              Hvi Hmod Hdi Hbs Htrain)
    as (s' & m1 & m2 & m3 & Hrun & _ & _ & Hsaved & Hfs & _).
  cbn zeta in Hsaved, Hfs.
  eexists s', _, _. split; [ exact Hrun | ]. split; [ exact Hsaved | ].
  split; [ reflexivity | ]. rewrite Hfs. apply lookup_insert_eq.
Defined.

Lemma reseeding_witness :
  let cfg := toy_cfg steady in
  let s := toy_state steady in
  let s2 := other_state in
  model_state s2 = model_state s
  /\ display_interval (cfg_args cfg) <> 0
  /\ validation_batches cfg <> []
  /\ exists s' s2' metrics,
       snd (validation_phase cfg 0 s) = Done s'
       /\ snd (validation_phase cfg 7 s2) = Done s2'
       /\ accuracies s' = Some metrics
       /\ accuracies s2' = Some metrics.
Proof.
  cbn zeta.
  assert (Hms : model_state other_state = model_state (toy_state steady)) by reflexivity.
  assert (Hdi : display_interval (cfg_args (toy_cfg steady)) <> 0) by discriminate.
  assert (Hbs : validation_batches (toy_cfg steady) <> []) by discriminate.
  repeat (split; [ assumption | ]).
  exact (proj2 (proj2 (reseeding (toy_cfg steady) 0 (toy_state steady)))
           7 other_state Hms Hdi Hbs).
Defined.

Lemma resume_restores_witness :
  let a := resume_args ["old.pt"] in
  let prepared :=
    match prepare_directories a toy_now resume_fs with
    | inr f => f
    | inl _ => resume_fs
    end in
  load_trained_model a = true
  /\ trained_model_path a = Some ["old.pt"]
  /\ path_exists resume_fs (data_root a) = true
  /\ prepare_directories a toy_now resume_fs = inr prepared
  /\ resume_fs !! ["old.pt"] = Some (CheckpointFile old_checkpoint)
  /\ lr_range a !! 0%nat = Some 0.5%float
  /\ lr_range a !! 1%nat = Some 1%float
  /\ exists evs cfg s,
       startup a toy_now resume_fs = (evs, Ready cfg 3 s)
       /\ step s = 40
       /\ validation_step s = 0.
Proof.
  cbn zeta.
  assert (Hload : load_trained_model (resume_args ["old.pt"]) = true) by reflexivity.
  assert (Hpath : trained_model_path (resume_args ["old.pt"]) = Some ["old.pt"])
    by reflexivity.
  assert (Hdata : path_exists resume_fs (data_root (resume_args ["old.pt"])) = true)
    by (vm_compute; reflexivity).
  assert (Hdirs : prepare_directories (resume_args ["old.pt"]) toy_now resume_fs
                  = inr (match prepare_directories (resume_args ["old.pt"]) toy_now resume_fs
                         with
                         | inr f => f
                         | inl _ => resume_fs
                         end))
    by (apply inr_projection; vm_compute; exact I).
  assert (Hck : resume_fs !! ["old.pt"] = Some (CheckpointFile old_checkpoint)).
  { unfold resume_fs. rewrite lookup_insert_ne by discriminate. apply lookup_singleton_eq. }
  assert (Hsize : display_architecture (resume_args ["old.pt"]) = true ->
                  (2 <= length (input_size (resume_args ["old.pt"])))%nat)
    by (intros Hshow; discriminate Hshow).
  assert (Hlr0 : lr_range (resume_args ["old.pt"]) !! 0%nat = Some 0.5%float) by reflexivity.
  assert (Hlr1 : lr_range (resume_args ["old.pt"]) !! 1%nat = Some 1%float) by reflexivity.
  repeat (split; [ assumption | ]).
  destruct (resume_restores (resume_args ["old.pt"]) toy_now resume_fs _ ["old.pt"]
              old_checkpoint 0.5 1 Hload Hpath Hdata Hdirs Hck Hsize Hlr0 Hlr1)
    as (evs & cfg & s & Hstart & Hstep & _ & Hval & _).
  exists evs, cfg, s. split; [ exact Hstart | ]. split; [ exact Hstep | exact Hval ].
Defined.

Lemma configuration_errors_witness :
  let a := resume_args ["missing.pt"] in
  let f := toy_fs steady in
  let prepared :=
    match prepare_directories a toy_now f with
    | inr f' => f'
    | inl _ => f
    end in
  load_trained_model a = true
  /\ trained_model_path a = Some ["missing.pt"]
  /\ path_exists f (data_root a) = true
  /\ prepare_directories a toy_now f = inr prepared
  /\ path_exists prepared ["missing.pt"] = false
  /\ (2 <= length (lr_range a))%nat
  /\ exists evs, main a toy_now f = (evs, Some OSError, prepared).
Proof.
  cbn zeta.
  assert (Hload : load_trained_model (resume_args ["missing.pt"]) = true) by reflexivity.
  assert (Hpath : trained_model_path (resume_args ["missing.pt"]) = Some ["missing.pt"])
    by reflexivity.
  assert (Hdata : path_exists (toy_fs steady) (data_root (resume_args ["missing.pt"])) = true)
    by (vm_compute; reflexivity).
  assert (Hdirs : prepare_directories (resume_args ["missing.pt"]) toy_now (toy_fs steady)
                  = inr (match prepare_directories (resume_args ["missing.pt"]) toy_now
                                 (toy_fs steady) with
                         | inr f' => f'
                         | inl _ => toy_fs steady
                         end))
    by (apply inr_projection; vm_compute; exact I).
  assert (Hmissing : path_exists
                       (match prepare_directories (resume_args ["missing.pt"]) toy_now
                                (toy_fs steady) with
                        | inr f' => f'
                        | inl _ => toy_fs steady
                        end) ["missing.pt"] = false)
    by (vm_compute; reflexivity).
  assert (Hsize : display_architecture (resume_args ["missing.pt"]) = true ->
                  (2 <= length (input_size (resume_args ["missing.pt"])))%nat)
    by (intros Hshow; discriminate Hshow).
  assert (Hlr : (2 <= length (lr_range (resume_args ["missing.pt"])))%nat)
    by (cbn; lia).
  repeat (split; [ assumption | ]).
  destruct (proj2 (proj2 (configuration_errors (resume_args ["missing.pt"]) toy_now
                            (toy_fs steady)))
              ["missing.pt"] _ Hload Hpath Hdata Hdirs Hmissing Hsize Hlr)
    as (evs & Hmain & _).
  exists evs. exact Hmain.
Defined.

End Runs.

(** ** More runs of the small instance *)

Section MoreRuns.

Import Toy.

Lemma ready_projection (r : @started (toy steady)) :
  match r with Ready _ _ _ => True | Aborted _ _ => False end ->
  r = Ready (started_cfg r) (started_epoch r) (started_state r).
Proof. destruct r; [ reflexivity | contradiction ]. Qed.

Lemma pair_projection {A B : Type} (x : A * B) : x = (fst x, snd x).
Proof. destruct x; reflexivity. Qed.

Lemma all_nonfinite_loop_is_harmless_witness :
  let cfg := toy_cfg steady in
  let s := toy_state steady in
  Forall (fun b => nonfinite (item (rr_loss (cfg_args cfg) (model_state s) b)) = true)
    [bad_batch; bad_batch]
  /\ exists evs s',
       train_loop cfg 0 0 [bad_batch; bad_batch] s = (evs, Done s')
       /\ model_state s' = model_state s
       /\ step s' = step s.
Proof.
  cbn zeta.
  assert (Hbs : Forall (fun b => nonfinite (item (rr_loss (cfg_args (toy_cfg steady))
                                           (model_state (toy_state steady)) b)) = true)
                  [bad_batch; bad_batch])
    by (repeat constructor).
  split; [ exact Hbs | ].
  destruct (all_nonfinite_loop_is_harmless (toy_cfg steady) 0 [bad_batch; bad_batch] 0
              (toy_state steady) Hbs)
    as (evs & s' & Hloop & Hms & _ & _ & Hstep & _).
  exists evs, s'. split; [ exact Hloop | ]. split; [ exact Hms | exact Hstep ].
Defined.

Lemma stale_mean_is_overwritten_witness :
  let cfg := toy_cfg steady in
  let s := toy_state steady in
  nonfinite (item (rr_loss (cfg_args cfg) (model_state s) good_batch)) = false
  /\ train_loop cfg 1 0 [good_batch; good_batch] (set_mean_rr_loss 0.5 s)
     = train_loop cfg 1 0 [good_batch; good_batch] s.
Proof.
  cbn zeta.
  assert (Hfin : nonfinite (item (rr_loss (cfg_args (toy_cfg steady))
                                    (model_state (toy_state steady)) good_batch)) = false)
    by (vm_compute; reflexivity).
  split; [ exact Hfin | ].
  exact (stale_mean_is_overwritten (toy_cfg steady) 1 good_batch [good_batch]
           (toy_state steady) 0.5 Hfin).
Defined.

Lemma zero_display_interval_witness :
  let cfg := custom_cfg steady 0 1 in
  let s := toy_state steady in
  display_interval (cfg_args cfg) = 0
  /\ nonfinite (item (rr_loss (cfg_args cfg) (model_state s) good_batch)) = false
  /\ exists s',
       snd (train_iteration cfg 0 0 good_batch s) = Raised ZeroDivisionError s'
       /\ step s' = step s.
Proof.
  cbn zeta.
  assert (Hdi : display_interval (cfg_args (custom_cfg steady 0 1)) = 0) by reflexivity.
  assert (Hfin : nonfinite (item (rr_loss (cfg_args (custom_cfg steady 0 1))
                                    (model_state (toy_state steady)) good_batch)) = false)
    by (vm_compute; reflexivity).
  split; [ exact Hdi | ]. split; [ exact Hfin | ].
  pose proof (zero_display_interval (custom_cfg steady 0 1) 0 0 good_batch (toy_state steady)
                Hdi (or_introl eq_refl)) as Hrun.
  cbn zeta in Hrun. rewrite Hfin in Hrun.
  destruct Hrun as (s' & Hraised & _ & _ & Hstep & _).
  exists s'. split; [ exact Hraised | exact Hstep ].
Defined.

Lemma validation_steps_accumulate_witness :
  let cfg := toy_cfg steady in
  let s := toy_state steady in
  let s' := result_state (snd (validation_phase cfg 0 s)) in
  snd (validation_phase cfg 0 s) = Done s'
  /\ validation_step s' = validation_step s + Z.of_nat (length (validation_batches cfg)).
Proof.
  cbn zeta.
  assert (Hdone : snd (validation_phase (toy_cfg steady) 0 (toy_state steady))
                  = Done (result_state (snd (validation_phase (toy_cfg steady) 0
                                               (toy_state steady)))))
    by (apply done_result_state; vm_compute; exact I).
  split; [ exact Hdone | ].
  exact (proj1 (validation_steps_accumulate (toy_cfg steady) 0 (toy_state steady) _ Hdone)).
Defined.

Lemma empty_validation_loader_witness :
  let cfg := toy_cfg no_validation in
  let s := toy_state no_validation in
  validation_batches cfg = []
  /\ mean_accuracy_1 s = None
  /\ exists s', snd (validation_phase cfg 0 s) = Raised (NameError "mean_accuracy_1") s'.
Proof.
  cbn zeta.
  assert (Hempty : validation_batches (toy_cfg no_validation) = []) by reflexivity.
  split; [ exact Hempty | ]. split; [ reflexivity | ].
  destruct (proj1 (empty_validation_loader (toy_cfg no_validation) 0
                     (toy_state no_validation) Hempty) eq_refl)
    as (s' & Hraised & _).
  exists s'. exact Hraised.
Defined.



Lemma epoch_range_witness :
  let st := startup toy_args toy_now (toy_fs steady) in
  st = (fst st, Ready (started_cfg (snd st)) (started_epoch (snd st)) (started_state (snd st)))
  /\ started_epoch (snd st) <= num_epoch toy_args
  /\ last (range (started_epoch (snd st)) (num_epoch toy_args + 1)) = Some (num_epoch toy_args).
Proof.
  cbn zeta.
  assert (Hstart : startup toy_args toy_now (toy_fs steady)
                   = (fst (startup toy_args toy_now (toy_fs steady)),
                      Ready (started_cfg (snd (startup toy_args toy_now (toy_fs steady))))
                        (started_epoch (snd (startup toy_args toy_now (toy_fs steady))))
                        (started_state (snd (startup toy_args toy_now (toy_fs steady)))))).
  { rewrite <- ready_projection by (vm_compute; exact I). apply pair_projection. }
  assert (Hle : started_epoch (snd (startup toy_args toy_now (toy_fs steady)))
                <= num_epoch toy_args)
    by (vm_compute; discriminate).
  split; [ exact Hstart | ]. split; [ exact Hle | ].
  exact (proj1 (proj2 (proj2 (epoch_range toy_args toy_now (toy_fs steady) _ _ _ _ Hstart)
                         Hle))).
Defined.

Lemma checkpoint_round_trip_witness :
  let cfg := toy_cfg steady in
  let s := toy_state steady in
  let phase := validation_phase cfg 0 s in
  let s' := result_state (snd phase) in
  let a := resume_args (path_join (cfg_log_root cfg) (@checkpoint_name (toy steady) 0 1 1 1)) in
  phase = (fst phase, Done s')
  /\ accuracies s' = Some (1%float, 1%float, 1%float)
  /\ path_exists (fs s') (data_root a) = true
  /\ dom (@init_net (toy steady) a (@seed_generator (toy steady) 10085)) = dom (model_state s)
  /\ exists evs2 cfg2 s2,
       startup a toy_now (fs s') = (evs2, Ready cfg2 (0 + 1) s2)
       /\ step s2 = step s
       /\ model_state s2 = model_state s.
Proof.
  cbn zeta.
  assert (Hphase : validation_phase (toy_cfg steady) 0 (toy_state steady)
                   = (fst (validation_phase (toy_cfg steady) 0 (toy_state steady)),
                      Done (result_state
                              (snd (validation_phase (toy_cfg steady) 0 (toy_state steady)))))).
  { rewrite <- done_result_state by (vm_compute; exact I). apply pair_projection. }
  assert (Hacc : accuracies
                   (result_state (snd (validation_phase (toy_cfg steady) 0 (toy_state steady))))
                 = Some (1%float, 1%float, 1%float))
    by (vm_compute; reflexivity).
  assert (Hdata : path_exists
                    (fs (result_state
                           (snd (validation_phase (toy_cfg steady) 0 (toy_state steady)))))
                    (data_root
                       (resume_args (path_join (cfg_log_root (toy_cfg steady))
                                       (@checkpoint_name (toy steady) 0 1 1 1)))) = true)
    by (vm_compute; reflexivity).
  assert (Hdirs : prepare_directories
                    (resume_args (path_join (cfg_log_root (toy_cfg steady))
                                    (@checkpoint_name (toy steady) 0 1 1 1)))
                    toy_now
                    (fs (result_state
                           (snd (validation_phase (toy_cfg steady) 0 (toy_state steady)))))
                  = inr (match prepare_directories
                                 (resume_args (path_join (cfg_log_root (toy_cfg steady))
                                                 (@checkpoint_name (toy steady) 0 1 1 1)))
                                 toy_now
                                 (fs (result_state
                                        (snd (validation_phase (toy_cfg steady) 0
                                                (toy_state steady))))) with
                         | inr f' => f'
                         | inl _ => toy_fs steady
                         end))
    by (apply inr_projection; vm_compute; exact I).
  assert (Hsize : display_architecture
                    (resume_args (path_join (cfg_log_root (toy_cfg steady))
                                    (@checkpoint_name (toy steady) 0 1 1 1))) = true ->
                  (2 <= length (input_size
                                  (resume_args (path_join (cfg_log_root (toy_cfg steady))
                                                  (@checkpoint_name (toy steady) 0 1 1 1)))))%nat)
    by (intros Hshow; discriminate Hshow).
  assert (Hdom : dom (@init_net (toy steady)
                        (resume_args (path_join (cfg_log_root (toy_cfg steady))
                                        (@checkpoint_name (toy steady) 0 1 1 1)))
                        (@seed_generator (toy steady) 10085))
                 = dom (model_state (toy_state steady)))
    by reflexivity.
  repeat (split; [ assumption | ]).
  exact (checkpoint_round_trip (toy_cfg steady) 0 (toy_state steady)
           (fst (validation_phase (toy_cfg steady) 0 (toy_state steady)))
           (result_state (snd (validation_phase (toy_cfg steady) 0 (toy_state steady))))
           1 1 1
           (resume_args (path_join (cfg_log_root (toy_cfg steady))
                           (@checkpoint_name (toy steady) 0 1 1 1)))
           toy_now
           (match prepare_directories
                    (resume_args (path_join (cfg_log_root (toy_cfg steady))
                                    (@checkpoint_name (toy steady) 0 1 1 1)))
                    toy_now
                    (fs (result_state
                           (snd (validation_phase (toy_cfg steady) 0 (toy_state steady))))) with
            | inr f' => f'
            | inl _ => toy_fs steady
            end)
           0.5 1
           Hphase Hacc eq_refl eq_refl Hdata Hdirs Hsize eq_refl eq_refl Hdom).
Defined.

Lemma directories_prepared_witness :
  let prepared :=
    match prepare_directories toy_args toy_now (toy_fs steady) with
    | inr f' => f'
    | inl _ => toy_fs steady
    end in
  prepare_directories toy_args toy_now (toy_fs steady) = inr prepared
  /\ path_exists prepared (log_root toy_args) = true
  /\ path_exists prepared (precompute_root toy_args) = true.
Proof.
  cbn zeta.
  assert (Hdirs : prepare_directories toy_args toy_now (toy_fs steady)
                  = inr (match prepare_directories toy_args toy_now (toy_fs steady) with
                         | inr f' => f'
                         | inl _ => toy_fs steady
                         end))
    by (apply inr_projection; vm_compute; exact I).
  split; [ exact Hdirs | ].
  destruct (directories_prepared toy_args toy_now (toy_fs steady) _ Hdirs)
    as (Hlog & _ & Hpre & _).
  split; [ exact Hlog | exact Hpre ].
Defined.


Lemma short_list_arguments_witness :
  let a := custom_args 10 1 [0.5%float] ["logs"] in
  let f := toy_fs steady in
  let prepared :=
    match prepare_directories a toy_now f with
    | inr f' => f'
    | inl _ => f
    end in
  path_exists f (data_root a) = true
  /\ prepare_directories a toy_now f = inr prepared
  /\ (length (lr_range a) < 2)%nat
  /\ exists evs, main a toy_now f = (evs, Some IndexError, prepared).
Proof.
  cbn zeta.
  set (a := custom_args 10 1 [0.5%float] ["logs"]).
  assert (Hpath : load_trained_model a = true -> trained_model_path a <> None)
    by (intros Hload; discriminate Hload).
  assert (Hdata : path_exists (toy_fs steady) (data_root a) = true)
    by (vm_compute; reflexivity).
  assert (Hdirs : prepare_directories a toy_now (toy_fs steady)
                  = inr (match prepare_directories a toy_now (toy_fs steady) with
                         | inr f' => f'
                         | inl _ => toy_fs steady
                         end))
    by (apply inr_projection; vm_compute; exact I).
  assert (Hsize : display_architecture a = true -> (2 <= length (input_size a))%nat)
    by (intros Hshow; discriminate Hshow).
  assert (Hlr : (length (lr_range a) < 2)%nat) by (cbn; lia).
  repeat (split; [ assumption | ]).
  destruct (proj1 (short_list_arguments a toy_now (toy_fs steady) _ Hpath Hdata Hdirs)
              Hsize Hlr)
    as (evs & Hmain & _).
  exists evs. exact Hmain.
Defined.

End MoreRuns.
